(** * Phase orchestration of the content developer

    A shallow embedding of [content_developer/orchestrator/orchestrator.py]
    (class [ContentDeveloperOrchestrator]) and the properties of its phase
    state machine: selector parsing, readiness gating, headless validation of
    the directory proposal, containment of phase failures and the
    apply-versus-preview file effects.

    Modelling conventions.
    - The phase selector, the one string whose characters are inspected,
      is a sequence of Unicode code points, with [str.isdigit] and [int]
      as CPython 3.11 defines them: [isdigit] accepts digits that [int]
      does not convert, and [int] refuses more than 4300 digits.  The other
      strings (paths, names, messages) are only compared, concatenated and
      sliced, and are Rocq strings.
    - Python [int] is [Z]; confidence scores (Python floats, only ever
      compared with the literals [0.7] and [0]) are rationals.
    - A [dict] read with [.get] becomes a record whose optional keys are
      [option] fields; a flag read only through its truth value is a [bool].
    - Everything outside the module (the LLM processors, the repository
      manager, the confirmation dialogues, [pathlib]) is an interface: the
      classes [Pathlib] and [Collaborators].  A collaborator call either
      returns a value or raises; so do the tests [Path.exists],
      [Path.is_dir] and [Path.rglob], which pass an [OSError] on.  What a
      collaborator does to the disk (the clone of Phase 1) is not part of
      the model: [files] tracks the orchestrator's own writes.
    - The orchestrator's own effects are the files written through
      [utils.write] and a journal, in program order, of the phase banners
      and errors it logs, the messages it sends to the console display and
      the directories and files it makes.  Informational log lines and
      progress-bar updates are not recorded.  Effects are threaded through
      the state-and-exception monad [M]; [utils.write] and [utils.mkdir]
      are taken to succeed. *)

From Stdlib Require Import QArith Ascii String.
From stdpp Require Import gmap strings list fin_maps.

(** ** Exceptions and outcomes *)

(** The three [raise RuntimeError(...)] statements of [_execute_phase1]. *)
Inductive auto_confirm_failure :=
| LLMFailed (error : string)
| SelectionFailed (error_msg : string)
| ConfidenceTooLow (confidence : Q).

Inductive exn :=
| RuntimeError (why : auto_confirm_failure)
| ValueError
| TypeError
| AttributeError
| KeyError
| OSError (msg : string)
| CollaboratorError (msg : string).

(** [str(e)] as far as the orchestrator uses it: the message of an exception
    raised by a collaborator. *)
Definition str_exn (e : exn) : string :=
  match e with
  | RuntimeError (LLMFailed error) => "Auto-confirm enabled but LLM failed: " +:+ error
  | RuntimeError (SelectionFailed m) => "Auto-confirm enabled but directory selection failed: " +:+ m
  | RuntimeError (ConfidenceTooLow _) => "Auto-confirm enabled but confidence too low"
  | ValueError => "ValueError"
  | TypeError => "TypeError"
  | AttributeError => "AttributeError"
  | KeyError => "KeyError"
  | OSError msg => msg
  | CollaboratorError msg => msg
  end.

Inductive outcome (A : Type) :=
| Returned (a : A)
| Raised (e : exn).
Arguments Returned {A} a.
Arguments Raised {A} e.

(** ** Data model *)

(** A Python [str] is a sequence of Unicode code points.  The phase
    selector is the one string whose characters the orchestrator inspects,
    and it is kept as such a sequence. *)
Definition codepoint := N.

Record Config := {
  phases : list codepoint;
  auto_confirm : bool;
  apply_changes : bool;
  skip_toc : bool;
  repo_url : string;
  work_dir : string;
  support_materials : list string;
  max_repo_depth : Z;
  content_goal : string;
  service_area : string
}.

(** [self]: the configuration and whether a console display is attached. *)
Record Orchestrator := {
  config : Config;
  console_display : bool
}.

(** The dictionary returned by [DirectoryDetector.process]. *)
Record Proposal := {
  llm_working_directory : option string;
  llm_justification : option string;
  llm_confidence : option Q;
  llm_error : option string
}.

(** The dictionary returned by [DirectoryConfirmation.confirm]; its three keys
    are read with [confirmed[...]]. *)
Record Confirmed := {
  confirmed_working_directory : string;
  confirmed_justification : string;
  confirmed_confidence : Q
}.

(** The dictionary built by [_setup_directory] and [_validate_directory]. *)
Record SetupResult := {
  setup_success : bool;
  setup_full_path : option string;
  setup_error_message : option string;
  setup_markdown_count : option nat
}.

Record Decision := {
  decision_action : string;
  decision_filename : option string
}.

Record ContentStrategy := {
  strategy_confidence : Q;
  decisions : list Decision;
  summary : string;
  strategy_error : option string
}.

(** One entry of [create_results] or [update_results]. *)
Record GenEntry := {
  entry_success : bool;
  entry_action : Decision;
  entry_content : option string;
  entry_updated_content : option string
}.

Record GenerationResults := {
  create_results : list GenEntry;
  update_results : list GenEntry;
  created_files : list string;
  updated_files : list string;
  generation_applied : option bool
}.

Record TocResults := {
  toc_success : bool;
  toc_changes_made : bool;
  toc_entries_added : list string;
  toc_content : option string;
  toc_message : option string;
  toc_applied : option bool
}.

(** [models.Result], with the fields the orchestrator reads and writes. *)
Record Result := {
  working_directory : string;
  justification : string;
  confidence : Q;
  result_repo_url : string;
  repo_path : string;
  material_summaries : list string;
  result_content_goal : string;
  result_service_area : string;
  directory_ready : bool;
  working_directory_full_path : option string;
  setup_error : option string;
  content_strategy : option ContentStrategy;
  strategy_ready : bool;
  generation_results : option GenerationResults;
  generation_ready : bool;
  toc_results : option TocResults;
  toc_ready : bool
}.

(** ** The journal and the world *)

Inductive event :=
| PhaseBanner (n : nat)
| Phase4SkippedBanner
| MkDir (p : string)
| WriteFile (p content : string)
| LogError (msg : string)
| ShowStatus (msg kind : string)
| ShowError (msg title : string)
| ShowDecision (d : Decision)
| ShowPhaseSummary (title : string).

Record World := {
  files : gmap string string;
  journal : list event
}.

(** ** The interfaces the orchestrator consumes *)

Class Pathlib := {
  joinpath : string → string → string;
  path_parent : string → string;
  path_name : string → string
}.

Class Collaborators := {
  MAX_PHASES : Z;
  clone_or_update : string → string → outcome string;
  get_structure : string → Z → outcome string;
  extract_name : string → string;
  material_process : list string → string → outcome (list string);
  detector_process : string → string → list string → outcome Proposal;
  dir_confirm : option Proposal → string → bool → string → outcome Confirmed;
  path_exists : string → outcome bool;
  path_is_dir : string → outcome bool;
  rglob_md : string → outcome (list string);
  discovery_process : string → string → string → outcome (list string);
  strategy_process :
    list string → list string → Config → string → string → outcome ContentStrategy;
  strategy_confirm : ContentStrategy → outcome ContentStrategy;
  generator_process :
    gmap string string → option ContentStrategy → list string → string → string → string →
    outcome GenerationResults;
  toc_process :
    gmap string string → string → list string → list string → list Decision →
    outcome TocResults
}.

(** ** Calls that return or raise *)

#[global] Instance outcome_ret : MRet outcome := λ A a, Returned a.

#[global] Instance outcome_bind : MBind outcome := λ A B f o,
  match o with
  | Returned a => f a
  | Raised e => Raised e
  end.

(** ** The state-and-exception monad *)

Definition M (A : Type) : Type := World → outcome A * World.

#[global] Instance M_ret : MRet M := λ A a w, (Returned a, w).

#[global] Instance M_bind : MBind M := λ A B f m w,
  match m w with
  | (Returned a, w') => f a w'
  | (Raised e, w') => (Raised e, w')
  end.

Definition raise {A : Type} (e : exn) : M A := λ w, (Raised e, w).

(** A call into a collaborator: its outcome becomes the outcome of the step. *)
Definition call {A : Type} (o : outcome A) : M A := λ w, (o, w).

(** [try: body except Exception as e: handler(e)]. *)
Definition try_except {A : Type} (body : M A) (handler : exn → M A) : M A := λ w,
  match body w with
  | (Returned a, w') => (Returned a, w')
  | (Raised e, w') => handler e w'
  end.

Definition emit (e : event) : M unit := λ w,
  (Returned (), {| files := files w; journal := journal w ++ [e] |}).

Definition emit_all (es : list event) : M unit := λ w,
  (Returned (), {| files := files w; journal := journal w ++ es |}).

Definition when (b : bool) (m : M unit) : M unit := if b then m else mret ().

Definition current_files : M (gmap string string) := λ w, (Returned (files w), w).

(** [utils.write(path, content)] and [utils.mkdir(path)]. *)
Definition write (p content : string) : M unit := λ w,
  (Returned (), {| files := <[p := content]> (files w);
                   journal := journal w ++ [WriteFile p content] |}).

Definition mkdir (p : string) : M unit := emit (MkDir p).

(** [Path(x)]: [TypeError] when [x] is [None]. *)
Definition Path (x : option string) : M string :=
  match x with
  | Some p => mret p
  | None => raise TypeError
  end.

(** [x.attr] on an optional object: [AttributeError] when [x] is [None]. *)
Definition attr {A : Type} (x : option A) : M A :=
  match x with
  | Some a => mret a
  | None => raise AttributeError
  end.

(** [d[key]]: [KeyError] when the key is absent. *)
Definition item {A : Type} (x : option A) : M A :=
  match x with
  | Some a => mret a
  | None => raise KeyError
  end.

(** ** Python built-ins used by the orchestrator *)

(** The code points of a literal. *)
Definition str_of (s : string) : list codepoint :=
  map N_of_ascii (list_ascii_of_string s).

(** The digits of the Unicode character database, as CPython 3.11 carries it
    (Unicode 14.0).  [decimal_zeros] lists the code points whose decimal
    value is 0: each starts a run of ten code points with the decimal values
    0 to 9, and these runs are all the characters that have a decimal value
    ('0'..'9' at 48, the Arabic-Indic digits at 1632, the fullwidth digits
    at 65296, ...).  [other_digits] lists the ranges of the characters that
    have a digit value and no decimal value: the superscripts at 178, 179
    and 185, the subscripts, the circled and parenthesized digits, ... *)
Definition decimal_zeros : list codepoint :=
  [48; 1632; 1776; 1984; 2406; 2534; 2662; 2790; 2918; 3046; 3174; 3302;
     3430; 3558; 3664; 3792; 3872; 4160; 4240; 6112; 6160; 6470; 6608;
     6784; 6800; 6992; 7088; 7232; 7248; 42528; 43216; 43264; 43472; 43504;
     43600; 44016; 65296; 66720; 68912; 69734; 69872; 69942; 70096; 70384;
     70736; 70864; 71248; 71360; 71472; 71904; 72016; 72784; 73040; 73120;
     92768; 92864; 93008; 120782; 120792; 120802; 120812; 120822; 123200;
     123632; 125264; 130032]%N.

Definition other_digits : list (codepoint * codepoint) :=
  [(178, 179); (185, 185); (4969, 4977); (6618, 6618); (8304, 8304);
     (8308, 8313); (8320, 8329); (9312, 9320); (9332, 9340); (9352, 9360);
     (9450, 9450); (9461, 9469); (9471, 9471); (10102, 10110);
     (10112, 10120); (10122, 10130); (68160, 68163); (69216, 69224);
     (69714, 69722); (127232, 127242)]%N.

(** [unicodedata.decimal(c, None)]. *)
Definition decimal (c : codepoint) : option Z :=
  match List.find (λ z, (z <=? c) && (c <? z + 10))%N decimal_zeros with
  | Some z => Some (Z.of_N (c - z))
  | None => None
  end.

(** [c.isdecimal()] and [c.isdigit()] on one character: [isdigit] accepts
    the characters with a decimal value and the other digits. *)
Definition isdecimal_char (c : codepoint) : bool :=
  match decimal c with
  | Some _ => true
  | None => false
  end.

Definition isdigit_char (c : codepoint) : bool :=
  isdecimal_char c || existsb (λ r, (r.1 <=? c) && (c <=? r.2))%N other_digits.

(** [s.isdigit()]: at least one character and every character a digit. *)
Definition isdigit (s : list codepoint) : bool :=
  match s with
  | [] => false
  | _ :: _ => forallb isdigit_char s
  end.

(** [sys.get_int_max_str_digits()], at the interpreter's default. *)
Definition int_max_str_digits : Z := 4300.

(** [int(s)] on the strings it is applied to here, which all satisfy
    [isdigit]: the value in base ten when every character has a decimal
    value and there are no more of them than the interpreter converts;
    [ValueError] for a digit without a decimal value (as for the empty
    string) and for a string that is too long. *)
Definition int (s : list codepoint) : outcome Z :=
  if bool_decide (s = []) then Raised ValueError
  else
    match mapM decimal s with
    | Some ds =>
        if (Z.of_nat (length s) <=? int_max_str_digits)%Z
        then Returned (fold_left (λ acc d, 10 * acc + d)%Z ds 0%Z)
        else Raised ValueError
    | None => Raised ValueError
    end.

(** [max(iterable)]: [ValueError] on an empty iterable. *)
Definition py_max (l : list Z) : outcome Z :=
  match l with
  | [] => Raised ValueError
  | x :: l' => Returned (fold_left Z.max l' x)
  end.

(** The truth value of [d.get(key)] for a string-valued key. *)
Definition truthy (o : option string) : bool :=
  match o with
  | Some (String _ _) => true
  | _ => false
  end.

(** [s[n:]]. *)
Fixpoint drop_chars (n : nat) (s : string) : string :=
  match n, s with
  | O, _ => s
  | S n', String _ s' => drop_chars n' s'
  | S _, EmptyString => EmptyString
  end.

(** [x < y] and [x > y] on confidence scores. *)
Definition Qlt_bool (x y : Q) : bool := negb (Qle_bool y x).

Definition from_option_Q (d : Q) (o : option Q) : Q :=
  match o with
  | Some x => x
  | None => d
  end.

Section Orchestration.
Context {pathlib : Pathlib} {collab : Collaborators}.

(** ** Selector parsing *)

Definition _parse_max_phase (self : Orchestrator) : outcome Z :=
  let phases := phases (config self) in
  if bool_decide (phases = str_of "all") then Returned MAX_PHASES
  else if isdigit phases then int phases
  else
    if existsb isdigit_char phases
    then values ← mapM (λ p, int [p]) (List.filter isdigit_char phases);
         py_max values
    else Returned 1%Z.

(** ** Phase 1: repository analysis and directory selection *)

Definition _detect_directory (self : Orchestrator) (repo_path structure : string)
    (materials : list string) : M (option Proposal * bool * string) :=
  try_except
    (llm_result ← call (detector_process repo_path structure materials);
     mret (Some llm_result, false, EmptyString))
    (λ e, mret (None, true, str_exn e)).

Definition _normalize_working_directory (repo_path working_dir : string) : string :=
  let repo_name := path_name repo_path in
  if String.prefix (repo_name +:+ "/") working_dir
  then drop_chars (String.length repo_name + 1) working_dir
  else working_dir.

Definition _validate_directory (full_path working_dir : string) :
    outcome (option SetupResult) :=
  found ← path_exists full_path;
  if negb found then
    mret (Some {| setup_success := false;
                  setup_full_path := Some full_path;
                  setup_error_message := Some ("Directory does not exist: " +:+ working_dir);
                  setup_markdown_count := None |})
  else
    is_dir ← path_is_dir full_path;
    if negb is_dir then
      mret (Some {| setup_success := false;
                    setup_full_path := Some full_path;
                    setup_error_message := Some ("Not a directory: " +:+ working_dir);
                    setup_markdown_count := None |})
    else mret None.

Definition _count_markdown_files (directory : string) : outcome nat :=
  md_files ← rglob_md directory;
  mret (length md_files).

Definition _setup_directory (repo_path working_dir : string) : outcome SetupResult :=
  let working_dir := _normalize_working_directory repo_path working_dir in
  let full_path := joinpath repo_path working_dir in
  validation_result ← _validate_directory full_path working_dir;
  match validation_result with
  | Some validation_result => mret validation_result
  | None =>
      md_count ← _count_markdown_files full_path;
      mret {| setup_success := true;
              setup_full_path := Some full_path;
              setup_error_message := None;
              setup_markdown_count := Some md_count |}
  end.

(** Modelled from the spec: [models.Result] is not among the sources.  The
    fields that [_create_phase1_result] does not pass take the defaults of the
    data model: every later readiness flag is [False] and every later phase
    output is [None] until its phase has run. *)
Definition _create_phase1_result (self : Orchestrator) (confirmed : Confirmed)
    (setup_result : SetupResult) (repo_path : string) (materials : list string) : Result :=
  {| working_directory := confirmed_working_directory confirmed;
     justification := confirmed_justification confirmed;
     confidence := confirmed_confidence confirmed;
     result_repo_url := repo_url (config self);
     repo_path := repo_path;
     material_summaries := materials;
     result_content_goal := content_goal (config self);
     result_service_area := service_area (config self);
     directory_ready := setup_success setup_result;
     working_directory_full_path := setup_full_path setup_result;
     setup_error := setup_error_message setup_result;
     content_strategy := None;
     strategy_ready := false;
     generation_results := None;
     generation_ready := false;
     toc_results := None;
     toc_ready := false |}.

(** The block under [if self.config.auto_confirm:]. *)
Definition auto_confirm_check (llm_result : option Proposal) (llm_failed : bool)
    (error : string) : M unit :=
  if llm_failed then
    emit (LogError ("Directory selection failed in auto-confirm mode: " +:+ error));;
    raise (RuntimeError (LLMFailed error))
  else
    match llm_result with
    | None => raise AttributeError
    | Some llm_result =>
        if negb (truthy (llm_working_directory llm_result)) then
          let error_msg := default "LLM returned empty directory"%string (llm_error llm_result) in
          emit (LogError ("Directory selection failed in auto-confirm mode: " +:+ error_msg));;
          raise (RuntimeError (SelectionFailed error_msg))
        else
          let c := from_option_Q 0%Q (llm_confidence llm_result) in
          if Qlt_bool c (7 # 10) then
            emit (LogError "Directory selection confidence too low in auto-confirm mode");;
            emit (LogError ("Selected directory: "
                            +:+ default EmptyString (llm_working_directory llm_result)));;
            raise (RuntimeError (ConfidenceTooLow c))
          else mret ()
    end.

(** The two flows of the source, with and without a console display, make
    the same calls in the same order; they are one sequence here. *)
Definition _execute_phase1 (self : Orchestrator) : M Result :=
  emit (PhaseBanner 1);;
  repo_path ← call (clone_or_update (repo_url (config self)) (work_dir (config self)));
  materials ← call (material_process (support_materials (config self)) repo_path);
  structure ← call (get_structure repo_path (max_repo_depth (config self)));
  '(llm_result, llm_failed, error) ← _detect_directory self repo_path structure materials;
  when (auto_confirm (config self)) (auto_confirm_check llm_result llm_failed error);;
  confirmed ← call (dir_confirm llm_result structure llm_failed error);
  setup_result ← call (_setup_directory repo_path (confirmed_working_directory confirmed));
  when (console_display self) (emit (ShowPhaseSummary "1: Repository Analysis"));;
  mret (_create_phase1_result self confirmed setup_result repo_path materials).

(** ** Phase 2: content strategy *)

Definition with_strategy (result : Result) (strategy : option ContentStrategy)
    (ready : bool) : Result :=
  {| working_directory := working_directory result;
     justification := justification result;
     confidence := confidence result;
     result_repo_url := result_repo_url result;
     repo_path := repo_path result;
     material_summaries := material_summaries result;
     result_content_goal := result_content_goal result;
     result_service_area := result_service_area result;
     directory_ready := directory_ready result;
     working_directory_full_path := working_directory_full_path result;
     setup_error := setup_error result;
     content_strategy := strategy;
     strategy_ready := ready;
     generation_results := generation_results result;
     generation_ready := generation_ready result;
     toc_results := toc_results result;
     toc_ready := toc_ready result |}.

(** Modelled from the spec: [StrategyConfirmation.confirm] is not among the
    sources.  Called as [confirm(None, True, str(error))] it yields the
    explicit failure strategy: confidence 0, no decisions, carrying the
    error. *)
Definition failure_strategy (error : string) : ContentStrategy :=
  {| strategy_confidence := 0%Q;
     decisions := [];
     summary := EmptyString;
     strategy_error := Some error |}.

Definition _discover_content (self : Orchestrator)
    (working_dir_path working_directory : string) : M (list string) :=
  call (discovery_process working_dir_path
          (extract_name (repo_url (config self))) working_directory).

Definition _generate_strategy (self : Orchestrator) (chunks materials : list string)
    (working_directory : string) : M ContentStrategy :=
  call (strategy_process chunks materials (config self)
          (extract_name (repo_url (config self))) working_directory).

Definition _handle_phase2_error (self : Orchestrator) (result : Result)
    (error : exn) : M Result :=
  emit (LogError (str_exn error));;
  emit (LogError "Traceback");;
  when (console_display self) (emit (ShowError (str_exn error) "Phase 2 Failed"));;
  let error_strategy := failure_strategy (str_exn error) in
  mret (with_strategy result (Some error_strategy) false).

(** The handler receives [result] as it was on entry: the only fields the
    body assigns before it can raise are the two the handler overwrites. *)
Definition _execute_phase2 (self : Orchestrator) (result : Result) : M Result :=
  emit (PhaseBanner 2);;
  try_except
    (working_dir_path ← Path (working_directory_full_path result);
     confirmed_strategy ←
       (if console_display self then
          chunks ← call (discovery_process working_dir_path
                           (extract_name (repo_url (config self)))
                           (working_directory result));
          strategy ← call (strategy_process chunks (material_summaries result)
                             (config self) (extract_name (repo_url (config self)))
                             (working_directory result));
          confirmed_strategy ← call (strategy_confirm strategy);
          emit (ShowStatus "Generated content decisions" "success");;
          emit_all (map ShowDecision (take 5 (decisions confirmed_strategy)));;
          when (5 <? length (decisions confirmed_strategy))%nat
               (emit (ShowStatus "... and more" "info"));;
          mret confirmed_strategy
        else
          chunks ← _discover_content self working_dir_path (working_directory result);
          strategy ← _generate_strategy self chunks (material_summaries result)
                       (working_directory result);
          call (strategy_confirm strategy));
     let result :=
       with_strategy result (Some confirmed_strategy)
         (Qlt_bool 0 (strategy_confidence confirmed_strategy)) in
     when (console_display self) (emit (ShowPhaseSummary "2: Content Strategy"));;
     mret result)
    (λ e, _handle_phase2_error self result e).

(** ** Phase 3: content generation and the apply engine *)

Definition with_generation (result : Result) (gr : option GenerationResults)
    (ready : bool) : Result :=
  {| working_directory := working_directory result;
     justification := justification result;
     confidence := confidence result;
     result_repo_url := result_repo_url result;
     repo_path := repo_path result;
     material_summaries := material_summaries result;
     result_content_goal := result_content_goal result;
     result_service_area := result_service_area result;
     directory_ready := directory_ready result;
     working_directory_full_path := working_directory_full_path result;
     setup_error := setup_error result;
     content_strategy := content_strategy result;
     strategy_ready := strategy_ready result;
     generation_results := gr;
     generation_ready := ready;
     toc_results := toc_results result;
     toc_ready := toc_ready result |}.

(** [generation_results['applied'] = b]. *)
Definition set_generation_applied (gr : GenerationResults) (b : bool) : GenerationResults :=
  {| create_results := create_results gr;
     update_results := update_results gr;
     created_files := created_files gr;
     updated_files := updated_files gr;
     generation_applied := Some b |}.

Definition _generate_content (self : Orchestrator) (result : Result)
    (working_dir_path working_directory : string) : M GenerationResults :=
  fs ← current_files;
  call (generator_process fs (content_strategy result) (material_summaries result)
          working_dir_path (extract_name (repo_url (config self))) working_directory).

Definition _create_file (result : GenEntry) (working_dir_path : string) : M unit :=
  let filename := default EmptyString (decision_filename (entry_action result)) in
  let file_path := joinpath working_dir_path filename in
  mkdir (path_parent file_path);;
  content ← item (entry_content result);
  write file_path content.

Fixpoint _apply_create_actions (create_results : list GenEntry)
    (working_dir_path : string) : M unit :=
  match create_results with
  | [] => mret ()
  | result :: rest =>
      when (entry_success result && truthy (entry_content result))
           (_create_file result working_dir_path);;
      _apply_create_actions rest working_dir_path
  end.

Definition _update_file (result : GenEntry) (working_dir_path : string) : M unit :=
  let filename := default EmptyString (decision_filename (entry_action result)) in
  let file_path := joinpath working_dir_path filename in
  updated_content ← item (entry_updated_content result);
  write file_path updated_content.

Fixpoint _apply_update_actions (update_results : list GenEntry)
    (working_dir_path : string) : M unit :=
  match update_results with
  | [] => mret ()
  | result :: rest =>
      when (entry_success result && truthy (entry_updated_content result))
           (_update_file result working_dir_path);;
      _apply_update_actions rest working_dir_path
  end.

Definition _apply_generated_content (generation_results : GenerationResults)
    (working_dir_path : string) : M unit :=
  _apply_create_actions (create_results generation_results) working_dir_path;;
  _apply_update_actions (update_results generation_results) working_dir_path.

Definition _handle_phase3_error (self : Orchestrator) (result : Result)
    (error : exn) : M Result :=
  emit (LogError (str_exn error));;
  when (console_display self) (emit (ShowError (str_exn error) "Phase 3 Failed"));;
  mret (with_generation result None false).

(** [result.generation_results] and the local [generation_results] are one
    dictionary: the [applied] key set after the assignment to the result is
    seen through the result. *)
Definition _execute_phase3 (self : Orchestrator) (result : Result) : M Result :=
  emit (PhaseBanner 3);;
  try_except
    (working_dir_path ← Path (working_directory_full_path result);
     generation_results ←
       (if console_display self then
          strategy ← attr (content_strategy result);
          fs ← current_files;
          call (generator_process fs (content_strategy result)
                  (material_summaries result) working_dir_path
                  (extract_name (repo_url (config self))) (working_directory result))
        else
          _generate_content self result working_dir_path (working_directory result));
     applied ←
       (if apply_changes (config self) then
          _apply_generated_content generation_results working_dir_path;;
          when (console_display self)
               (emit (ShowStatus "Changes applied to repository" "success"));;
          mret true
        else
          when (console_display self)
               (emit (ShowStatus "Preview mode - changes not applied" "info"));;
          mret false);
     when (console_display self) (emit (ShowPhaseSummary "3: Content Generation"));;
     mret (with_generation result
             (Some (set_generation_applied generation_results applied)) true))
    (λ e, _handle_phase3_error self result e).

(** ** Phase 4: TOC management *)

Definition with_toc (result : Result) (toc : option TocResults) (ready : bool) : Result :=
  {| working_directory := working_directory result;
     justification := justification result;
     confidence := confidence result;
     result_repo_url := result_repo_url result;
     repo_path := repo_path result;
     material_summaries := material_summaries result;
     result_content_goal := result_content_goal result;
     result_service_area := result_service_area result;
     directory_ready := directory_ready result;
     working_directory_full_path := working_directory_full_path result;
     setup_error := setup_error result;
     content_strategy := content_strategy result;
     strategy_ready := strategy_ready result;
     generation_results := generation_results result;
     generation_ready := generation_ready result;
     toc_results := toc;
     toc_ready := ready |}.

(** [toc_results['applied'] = b]. *)
Definition set_toc_applied (toc : TocResults) (b : bool) : TocResults :=
  {| toc_success := toc_success toc;
     toc_changes_made := toc_changes_made toc;
     toc_entries_added := toc_entries_added toc;
     toc_content := toc_content toc;
     toc_message := toc_message toc;
     toc_applied := Some b |}.

(** [strategy.decisions if hasattr(strategy, 'decisions') else []]. *)
Definition decisions_of (strategy : option ContentStrategy) : list Decision :=
  match strategy with
  | Some s => decisions s
  | None => []
  end.

Definition _run_toc_phase (working_dir_path : string) (created_files updated_files : list string)
    (strategy : option ContentStrategy) : M TocResults :=
  fs ← current_files;
  call (toc_process fs working_dir_path created_files updated_files (decisions_of strategy)).

Definition _apply_toc_changes (toc_results : TocResults) (working_dir_path : string) : M unit :=
  let toc_path := joinpath working_dir_path "TOC.yml" in
  let updated_content := default EmptyString (toc_content toc_results) in
  if negb (truthy (Some updated_content)) then
    emit (LogError "No TOC content to apply")
  else
    write toc_path updated_content.

Definition _handle_phase4_error (self : Orchestrator) (result : Result)
    (error : exn) : M Result :=
  emit (LogError (str_exn error));;
  when (console_display self) (emit (ShowError (str_exn error) "Phase 4 Failed"));;
  mret (with_toc result None false).

Definition _execute_phase4 (self : Orchestrator) (result : Result) : M Result :=
  emit (PhaseBanner 4);;
  try_except
    (working_dir_path ← Path (working_directory_full_path result);
     toc_results ←
       (if console_display self then
          generation_results ← attr (generation_results result);
          fs ← current_files;
          toc_results ← call (toc_process fs working_dir_path
                                (created_files generation_results)
                                (updated_files generation_results)
                                (decisions_of (content_strategy result)));
          if apply_changes (config self) && toc_success toc_results
             && toc_changes_made toc_results
          then
            _apply_toc_changes toc_results working_dir_path;;
            emit (ShowStatus "TOC.yml updated" "success");;
            mret (set_toc_applied toc_results true)
          else
            (if toc_success toc_results && negb (toc_changes_made toc_results)
             then emit (ShowStatus "No TOC changes needed" "info")
             else when (toc_success toc_results)
                       (emit (ShowStatus "TOC preview generated" "info")));;
            mret (set_toc_applied toc_results false)
        else
          generation_results ← attr (generation_results result);
          toc_results ← _run_toc_phase working_dir_path
                          (created_files generation_results)
                          (updated_files generation_results)
                          (content_strategy result);
          if apply_changes (config self) && toc_success toc_results
             && toc_changes_made toc_results
          then
            _apply_toc_changes toc_results working_dir_path;;
            mret (set_toc_applied toc_results true)
          else
            mret (set_toc_applied toc_results false));
     when (console_display self) (emit (ShowPhaseSummary "4: TOC Management"));;
     mret (with_toc result (Some toc_results) true))
    (λ e, _handle_phase4_error self result e).

(** ** The workflow *)

Definition execute (self : Orchestrator) : M Result :=
  max_phase ← call (_parse_max_phase self);
  result ← _execute_phase1 self;
  result ←
    (if (2 <=? max_phase)%Z && directory_ready result
     then _execute_phase2 self result
     else mret result);
  result ←
    (if (3 <=? max_phase)%Z && strategy_ready result
     then _execute_phase3 self result
     else mret result);
  result ←
    (if (4 <=? max_phase)%Z && generation_ready result && negb (skip_toc (config self))
     then _execute_phase4 self result
     else if (4 <=? max_phase)%Z && skip_toc (config self)
     then
       when (console_display self)
            (emit (ShowStatus "TOC management skipped (--skip-toc flag)" "info"));;
       emit Phase4SkippedBanner;;
       mret result
     else mret result);
  mret result.

End Orchestration.

(** ** Vocabulary of the specification *)

(** The value of a decimal digit. *)
Definition digit_value (c : codepoint) : Z := default 0%Z (decimal c).

(** The number a sequence of digit values denotes in base ten. *)
Fixpoint positional_value (ds : list Z) : Z :=
  match ds with
  | [] => 0%Z
  | d :: ds' => (d * 10 ^ Z.of_nat (length ds') + positional_value ds')%Z
  end.

Definition decimal_value (s : list codepoint) : Z :=
  positional_value (map digit_value s).

(** A character that [isdigit] accepts and [int] does not convert. *)
Definition non_decimal_digit (c : codepoint) : Prop :=
  isdigit_char c = true ∧ isdecimal_char c = false.

(** [m] is the largest digit value occurring among the characters [cs]. *)
Definition is_max_digit (cs : list codepoint) (m : Z) : Prop :=
  (∃ c, In c cs ∧ isdigit_char c = true ∧ digit_value c = m) ∧
  (∀ c, In c cs → isdigit_char c = true → (digit_value c <= m)%Z).

(** The new entries of the journal between two worlds. *)
Definition journal_extends (w w' : World) (evs : list event) : Prop :=
  journal w' = journal w ++ evs.

(** Phase [n] executed: its banner was logged. *)
Definition phase_ran (n : nat) (evs : list event) : Prop := In (PhaseBanner n) evs.

(** The file writes recorded in a journal, in program order. *)
Definition writes_of (evs : list event) : list (string * string) :=
  omap (λ e, match e with WriteFile p c => Some (p, c) | _ => None end) evs.

(** The file a result entry is aimed at. *)
Definition target_path `{Pathlib} (working_dir_path : string) (r : GenEntry) : string :=
  joinpath working_dir_path (default EmptyString (decision_filename (entry_action r))).

(** An entry is applicable when it succeeded and carries non-empty content in
    the given field ([content] for CREATE, [updated_content] for UPDATE). *)
Definition applicable (field : GenEntry → option string) (r : GenEntry) : bool :=
  entry_success r && truthy (field r).

(** The writes a list of result entries calls for: the applicable entries, in
    the order of the list, each with its target and content. *)
Definition planned_writes `{Pathlib} (field : GenEntry → option string)
    (working_dir_path : string) (rs : list GenEntry) : list (string * string) :=
  omap (λ r, if applicable field r
             then Some (target_path working_dir_path r, default EmptyString (field r))
             else None) rs.

(** The files after a sequence of writes: later writes win. *)
Definition after_writes (fs : gmap string string) (ws : list (string * string)) :
    gmap string string :=
  fold_left (λ m pc, <[pc.1 := pc.2]> m) ws fs.

(** The ways the body of Phase 2 raises: the working directory path is
    unusable, or discovery, strategy generation or confirmation raises. *)
Definition phase2_raises `{Collaborators} (self : Orchestrator) (result : Result)
    (e : exn) : Prop :=
  (working_directory_full_path result = None ∧ e = TypeError) ∨
  ∃ wd, working_directory_full_path result = Some wd ∧
    let name := extract_name (repo_url (config self)) in
    (discovery_process wd name (working_directory result) = Raised e ∨
     ∃ chunks, discovery_process wd name (working_directory result) = Returned chunks ∧
       (strategy_process chunks (material_summaries result) (config self) name
          (working_directory result) = Raised e ∨
        ∃ strategy,
          strategy_process chunks (material_summaries result) (config self) name
            (working_directory result) = Returned strategy ∧
          strategy_confirm strategy = Raised e)).

(** ** A scripted environment for examples *)

Fixpoint basename_go (acc s : string) : string :=
  match s with
  | EmptyString => acc
  | String c s' =>
      if Ascii.eqb c "/" then basename_go EmptyString s'
      else basename_go (acc +:+ String c EmptyString) s'
  end.

Fixpoint dirname_go (done pending s : string) : string :=
  match s with
  | EmptyString => done
  | String c s' =>
      if Ascii.eqb c "/" then dirname_go (done +:+ pending) "/" s'
      else dirname_go done (pending +:+ String c EmptyString) s'
  end.

(** Paths as slash-separated strings. *)
Definition posix : Pathlib :=
  {| joinpath := λ d f, d +:+ "/" +:+ f;
     path_parent := dirname_go EmptyString EmptyString;
     path_name := basename_go EmptyString |}.

(** A headless confirmation that passes the proposal through. *)
Definition pass_through (llm_result : option Proposal) : outcome Confirmed :=
  match llm_result with
  | Some p =>
      Returned {| confirmed_working_directory := default EmptyString (llm_working_directory p);
                  confirmed_justification := default EmptyString (llm_justification p);
                  confirmed_confidence := from_option_Q 0%Q (llm_confidence p) |}
  | None => Raised (CollaboratorError "no proposal to confirm")
  end.

(** Collaborators that answer from a fixed script; every path is an existing
    directory without markdown files. *)
Definition scripted (proposal : outcome Proposal) (strategy : outcome ContentStrategy)
    (generated : outcome GenerationResults) (toc : outcome TocResults) : Collaborators :=
  {| MAX_PHASES := 4%Z;
     clone_or_update := λ _ _, Returned "/work/repo"%string;
     get_structure := λ _ _, Returned "docs/"%string;
     extract_name := λ _, "repo"%string;
     material_process := λ _ _, Returned [];
     detector_process := λ _ _ _, proposal;
     dir_confirm := λ llm_result _ _ _, pass_through llm_result;
     path_exists := λ _, Returned true;
     path_is_dir := λ _, Returned true;
     rglob_md := λ _, Returned [];
     discovery_process := λ _ _ _, Returned [];
     strategy_process := λ _ _ _ _ _, strategy;
     strategy_confirm := λ s, Returned s;
     generator_process := λ _ _ _ _ _ _, generated;
     toc_process := λ _ _ _ _ _, toc |}.

Definition demo_config_at (selector : list codepoint) (headless apply skip : bool) :
    Config :=
  {| phases := selector;
     auto_confirm := headless;
     apply_changes := apply;
     skip_toc := skip;
     repo_url := "https://example.org/repo";
     work_dir := "/work";
     support_materials := [];
     max_repo_depth := 3%Z;
     content_goal := "document the feature";
     service_area := "docs" |}.

Definition demo_config (selector : string) (headless apply skip : bool) : Config :=
  demo_config_at (str_of selector) headless apply skip.

Definition demo_self (selector : string) (headless apply skip : bool) : Orchestrator :=
  {| config := demo_config selector headless apply skip; console_display := false |}.

(** A headless preview run whose selector is the one character
    SUPERSCRIPT TWO (U+00B2). *)
Definition superscript_two_self : Orchestrator :=
  {| config := demo_config_at [178%N] true false false; console_display := false |}.

Definition demo_proposal (c : Q) : Proposal :=
  {| llm_working_directory := Some "docs"%string;
     llm_justification := Some "closest match"%string;
     llm_confidence := Some c;
     llm_error := None |}.

Definition demo_decision (action filename : string) : Decision :=
  {| decision_action := action; decision_filename := Some filename |}.

Definition demo_strategy (c : Q) : ContentStrategy :=
  {| strategy_confidence := c;
     decisions := [demo_decision "CREATE" "new.md"; demo_decision "UPDATE" "old.md"];
     summary := "one new page, one update";
     strategy_error := None |}.

Definition demo_create (ok : bool) (filename : string) (content : option string) : GenEntry :=
  {| entry_success := ok;
     entry_action := demo_decision "CREATE" filename;
     entry_content := content;
     entry_updated_content := None |}.

Definition demo_update (ok : bool) (filename : string) (content : option string) : GenEntry :=
  {| entry_success := ok;
     entry_action := demo_decision "UPDATE" filename;
     entry_content := None;
     entry_updated_content := content |}.

Definition demo_generated (creates updates : list GenEntry) : GenerationResults :=
  {| create_results := creates;
     update_results := updates;
     created_files := [];
     updated_files := [];
     generation_applied := None |}.

Definition demo_toc (ok changed : bool) (content : option string) : TocResults :=
  {| toc_success := ok;
     toc_changes_made := changed;
     toc_entries_added := [];
     toc_content := content;
     toc_message := None;
     toc_applied := None |}.

Definition empty_world : World := {| files := ∅; journal := [] |}.

(** ** What each phase amounts to

    Each phase is determined by the answer of the collaborators it consults.
    The definitions below name that answer, the result record it leads to and
    the journal entries and file writes it causes; the lemmas [phase2_run],
    [phase3_run] and [phase4_run] prove that the phases compute exactly
    these. *)

Definition not_banner (e : event) : Prop :=
  match e with
  | PhaseBanner _ => False
  | _ => True
  end.

Definition console_only (self : Orchestrator) (evs : list event) : list event :=
  if console_display self then evs else [].

Definition failure_events (self : Orchestrator) (e : exn) (title : string) : list event :=
  LogError (str_exn e) :: console_only self [ShowError (str_exn e) title].

Section Denotations.
Context {pathlib : Pathlib} {collab : Collaborators}.

(** The strategy Phase 2 obtains, or the exception that ends its body. *)
Definition phase2_oracle (self : Orchestrator) (result : Result) : outcome ContentStrategy :=
  match working_directory_full_path result with
  | None => Raised TypeError
  | Some wd =>
      let name := extract_name (repo_url (config self)) in
      match discovery_process wd name (working_directory result) with
      | Raised e => Raised e
      | Returned chunks =>
          match strategy_process chunks (material_summaries result) (config self) name
                  (working_directory result) with
          | Raised e => Raised e
          | Returned strategy => strategy_confirm strategy
          end
      end
  end.

Definition phase2_result (result : Result) (o : outcome ContentStrategy) : Result :=
  match o with
  | Returned s => with_strategy result (Some s) (Qlt_bool 0 (strategy_confidence s))
  | Raised e => with_strategy result (Some (failure_strategy (str_exn e))) false
  end.

Definition phase2_events (self : Orchestrator) (o : outcome ContentStrategy) : list event :=
  match o with
  | Returned s =>
      console_only self
        (ShowStatus "Generated content decisions" "success"
         :: map ShowDecision (take 5 (decisions s))
         ++ (if (5 <? length (decisions s))%nat then [ShowStatus "... and more" "info"] else [])
         ++ [ShowPhaseSummary "2: Content Strategy"])
  | Raised e =>
      LogError (str_exn e) :: LogError "Traceback"
      :: console_only self [ShowError (str_exn e) "Phase 2 Failed"]
  end.

(** The journal entries of the two apply loops. *)
Definition create_journal (working_dir_path : string) (rs : list GenEntry) : list event :=
  flat_map (λ r, if applicable entry_content r
                 then [MkDir (path_parent (target_path working_dir_path r));
                       WriteFile (target_path working_dir_path r)
                         (default EmptyString (entry_content r))]
                 else []) rs.

Definition update_journal (working_dir_path : string) (rs : list GenEntry) : list event :=
  flat_map (λ r, if applicable entry_updated_content r
                 then [WriteFile (target_path working_dir_path r)
                         (default EmptyString (entry_updated_content r))]
                 else []) rs.

(** The working directory and generation results Phase 3 obtains, or the
    exception that ends its body. *)
Definition phase3_oracle (self : Orchestrator) (result : Result)
    (fs : gmap string string) : outcome (string * GenerationResults) :=
  match working_directory_full_path result with
  | None => Raised TypeError
  | Some wd =>
      let generated :=
        generator_process fs (content_strategy result) (material_summaries result) wd
          (extract_name (repo_url (config self))) (working_directory result) in
      match (if console_display self
             then match content_strategy result with
                  | Some _ => generated
                  | None => Raised AttributeError
                  end
             else generated) with
      | Returned gr => Returned (wd, gr)
      | Raised e => Raised e
      end
  end.

Definition phase3_result (self : Orchestrator) (result : Result)
    (o : outcome (string * GenerationResults)) : Result :=
  match o with
  | Returned (_, gr) =>
      with_generation result
        (Some (set_generation_applied gr (apply_changes (config self)))) true
  | Raised _ => with_generation result None false
  end.

Definition phase3_writes (self : Orchestrator)
    (o : outcome (string * GenerationResults)) : list (string * string) :=
  match o with
  | Returned (wd, gr) =>
      if apply_changes (config self)
      then planned_writes entry_content wd (create_results gr)
           ++ planned_writes entry_updated_content wd (update_results gr)
      else []
  | Raised _ => []
  end.

Definition phase3_events (self : Orchestrator)
    (o : outcome (string * GenerationResults)) : list event :=
  match o with
  | Returned (wd, gr) =>
      (if apply_changes (config self)
       then create_journal wd (create_results gr) ++ update_journal wd (update_results gr)
            ++ console_only self [ShowStatus "Changes applied to repository" "success"]
       else console_only self [ShowStatus "Preview mode - changes not applied" "info"])
      ++ console_only self [ShowPhaseSummary "3: Content Generation"]
  | Raised e => failure_events self e "Phase 3 Failed"
  end.

(** The working directory and TOC results Phase 4 obtains, or the exception
    that ends its body. *)
Definition phase4_oracle (self : Orchestrator) (result : Result)
    (fs : gmap string string) : outcome (string * TocResults) :=
  match working_directory_full_path result with
  | None => Raised TypeError
  | Some wd =>
      match generation_results result with
      | None => Raised AttributeError
      | Some gr =>
          match toc_process fs wd (created_files gr) (updated_files gr)
                  (decisions_of (content_strategy result)) with
          | Returned toc => Returned (wd, toc)
          | Raised e => Raised e
          end
      end
  end.

(** The condition under which Phase 4 applies the TOC. *)
Definition toc_applies (self : Orchestrator) (toc : TocResults) : bool :=
  apply_changes (config self) && toc_success toc && toc_changes_made toc.

Definition phase4_result (self : Orchestrator) (result : Result)
    (o : outcome (string * TocResults)) : Result :=
  match o with
  | Returned (_, toc) =>
      with_toc result (Some (set_toc_applied toc (toc_applies self toc))) true
  | Raised _ => with_toc result None false
  end.

Definition phase4_writes (self : Orchestrator)
    (o : outcome (string * TocResults)) : list (string * string) :=
  match o with
  | Returned (wd, toc) =>
      if toc_applies self toc && truthy (toc_content toc)
      then [(joinpath wd "TOC.yml", default EmptyString (toc_content toc))]
      else []
  | Raised _ => []
  end.

Definition phase4_events (self : Orchestrator)
    (o : outcome (string * TocResults)) : list event :=
  match o with
  | Returned (wd, toc) =>
      (if toc_applies self toc
       then (if truthy (toc_content toc)
             then [WriteFile (joinpath wd "TOC.yml") (default EmptyString (toc_content toc))]
             else [LogError "No TOC content to apply"])
            ++ console_only self [ShowStatus "TOC.yml updated" "success"]
       else console_only self
              (if toc_success toc && negb (toc_changes_made toc)
               then [ShowStatus "No TOC changes needed" "info"]
               else if toc_success toc
                    then [ShowStatus "TOC preview generated" "info"]
                    else []))
      ++ console_only self [ShowPhaseSummary "4: TOC Management"]
  | Raised e => failure_events self e "Phase 4 Failed"
  end.

End Denotations.

(** The phases whose banner appears in a journal, in order. *)
Definition banners (evs : list event) : list nat :=
  omap (λ e, match e with PhaseBanner n => Some n | _ => None end) evs.

(** The proposals the headless validation of Phase 1 turns down: the oracle
    raised, the working directory is empty or absent, or the confidence (0
    when absent) is below 0.70. *)
Definition headless_rejects (o : outcome Proposal) : Prop :=
  match o with
  | Raised _ => True
  | Returned p =>
      truthy (llm_working_directory p) = false ∨
      (from_option_Q 0 (llm_confidence p) < 7 # 10)%Q
  end.

Section Phase1.
Context {pathlib : Pathlib} {collab : Collaborators}.

(** The outcome of Phase 1, which does not depend on the world it starts in. *)
Definition phase1_outcome (self : Orchestrator) : outcome Result :=
  (_execute_phase1 self {| files := ∅; journal := [] |}).1.

(** What Phase 1 adds to the journal after its banner. *)
Definition phase1_events (self : Orchestrator) : list event :=
  tail (journal (_execute_phase1 self {| files := ∅; journal := [] |}).2).

End Phase1.

(** ** Scripted runs used by the examples *)

Definition healthy_proposal : outcome Proposal := Returned (demo_proposal (9 # 10)).

Definition healthy_generated : outcome GenerationResults :=
  Returned (demo_generated [demo_create true "new.md" (Some "# New"%string)]
              [demo_update true "old.md" (Some "# Old"%string)]).

(** The oracle proposes a directory with confidence exactly 0.70. *)
Definition threshold_env : Collaborators :=
  scripted (Returned (demo_proposal (7 # 10))) (Returned (demo_strategy (1 # 2)))
    healthy_generated (Returned (demo_toc true false None)).

(** The strategy oracle fails with a connection error. *)
Definition failing_strategy_env : Collaborators :=
  scripted healthy_proposal (Raised (CollaboratorError "ConnectionError"))
    healthy_generated (Returned (demo_toc true false None)).

(** The generator reports a successful CREATE whose content is empty. *)
Definition empty_create_env : Collaborators :=
  scripted healthy_proposal (Returned (demo_strategy (1 # 2)))
    (Returned (demo_generated [demo_create true "new.md" (Some EmptyString)] []))
    (Returned (demo_toc true false None)).

(** The TOC processor reports success and changes but returns no content. *)
Definition empty_toc_env : Collaborators :=
  scripted healthy_proposal (Returned (demo_strategy (1 # 2))) healthy_generated
    (Returned (demo_toc true true (Some EmptyString))).

(** The TOC processor returns a full replacement document. *)
Definition full_toc_env : Collaborators :=
  scripted healthy_proposal (Returned (demo_strategy (1 # 2))) healthy_generated
    (Returned (demo_toc true true (Some "items: []"%string))).

(** The TOC processor returns a failure report. *)
Definition failed_toc_env : Collaborators :=
  scripted healthy_proposal (Returned (demo_strategy (1 # 2))) healthy_generated
    (Returned (demo_toc false false None)).

(** The clone fails; the directory oracle, were it asked, would propose
    "docs" with confidence 0.90. *)
Definition failing_clone_env : Collaborators :=
  {| MAX_PHASES := 4%Z;
     clone_or_update := λ _ _, Raised (CollaboratorError "clone failed");
     get_structure := λ _ _, Returned "docs/"%string;
     extract_name := λ _, "repo"%string;
     material_process := λ _ _, Returned [];
     detector_process := λ _ _ _, healthy_proposal;
     dir_confirm := λ llm_result _ _ _, pass_through llm_result;
     path_exists := λ _, Returned true;
     path_is_dir := λ _, Returned true;
     rglob_md := λ _, Returned [];
     discovery_process := λ _ _ _, Returned [];
     strategy_process := λ _ _ _ _ _, Returned (demo_strategy (1 # 2));
     strategy_confirm := λ s, Returned s;
     generator_process := λ _ _ _ _ _ _, healthy_generated;
     toc_process := λ _ _ _ _ _, Returned (demo_toc true false None) |}.

(** A result as Phases 1 to 3 leave it. *)
Definition demo_result (gr : GenerationResults) : Result :=
  {| working_directory := "docs";
     justification := "closest match";
     confidence := 9 # 10;
     result_repo_url := "https://example.org/repo";
     repo_path := "/work/repo";
     material_summaries := [];
     result_content_goal := "document the feature";
     result_service_area := "docs";
     directory_ready := true;
     working_directory_full_path := Some "/work/repo/docs"%string;
     setup_error := None;
     content_strategy := Some (demo_strategy (1 # 2));
     strategy_ready := true;
     generation_results := Some gr;
     generation_ready := true;
     toc_results := None;
     toc_ready := false |}.

(** ** Further vocabulary and scripted trees *)

(** The journal entries that change the disk. *)
Definition touches_disk (e : event) : bool :=
  match e with
  | MkDir _ | WriteFile _ _ => true
  | _ => false
  end.

Definition disk_events (evs : list event) : list event := List.filter touches_disk evs.

(** The directories made, in program order. *)
Definition mkdirs_of (evs : list event) : list string :=
  omap (λ e, match e with MkDir p => Some p | _ => None end) evs.

(** The two counts that [_log_generation_summary] logs, and that the phase
    summary shows as "Files Created" and "Files Updated": the entries with a
    true [success]. *)
Definition _log_generation_summary (generation_results : GenerationResults) : nat * nat :=
  let create_count := length (List.filter entry_success (create_results generation_results)) in
  let update_count := length (List.filter entry_success (update_results generation_results)) in
  (create_count, update_count).

(** Collaborators as in [scripted], over a source tree in which exactly the
    listed directories and plain files exist. *)
Definition scripted_tree (dirs plain : list string) (md : list string) : Collaborators :=
  {| MAX_PHASES := 4%Z;
     clone_or_update := λ _ _, Returned "/work/repo"%string;
     get_structure := λ _ _, Returned "docs/"%string;
     extract_name := λ _, "repo"%string;
     material_process := λ _ _, Returned [];
     detector_process := λ _ _ _, healthy_proposal;
     dir_confirm := λ llm_result _ _ _, pass_through llm_result;
     path_exists := λ p, Returned (existsb (String.eqb p) (dirs ++ plain));
     path_is_dir := λ p, Returned (existsb (String.eqb p) dirs);
     rglob_md := λ _, Returned md;
     discovery_process := λ _ _ _, Returned [];
     strategy_process := λ _ _ _ _ _, Returned (demo_strategy (1 # 2));
     strategy_confirm := λ s, Returned s;
     generator_process := λ _ _ _ _ _ _, healthy_generated;
     toc_process := λ _ _ _ _ _, Returned (demo_toc true false None) |}.

(** The ways Phase 1 raises without auto-confirm: the clone, the material
    processor, the structure scan, the confirmation dialogue or a path test
    of the directory setup raises.  The directory oracle is not among them:
    its exception is caught and handed to the dialogue. *)
Definition phase1_raises `{Pathlib} `{Collaborators} (self : Orchestrator) (e : exn) : Prop :=
  clone_or_update (repo_url (config self)) (work_dir (config self)) = Raised e ∨
  ∃ rp, clone_or_update (repo_url (config self)) (work_dir (config self)) = Returned rp ∧
    (material_process (support_materials (config self)) rp = Raised e ∨
     ∃ ms, material_process (support_materials (config self)) rp = Returned ms ∧
       (get_structure rp (max_repo_depth (config self)) = Raised e ∨
        ∃ st, get_structure rp (max_repo_depth (config self)) = Returned st ∧
          let confirmed :=
            match detector_process rp st ms with
            | Returned p => dir_confirm (Some p) st false EmptyString
            | Raised e0 => dir_confirm None st true (str_exn e0)
            end in
          (confirmed = Raised e ∨
           ∃ c, confirmed = Returned c ∧
                _setup_directory rp (confirmed_working_directory c) = Raised e))).

(** * Properties *)

(** ** Strings *)

Lemma prefix_app (p s : string) : String.prefix p (p +:+ s) = true.
Proof.
  induction p as [|c p IH]; simpl.
  - by destruct s.
  - destruct (ascii_dec c c); [exact IH | congruence].
Qed.

Lemma drop_chars_app (p s : string) : drop_chars (String.length p) (p +:+ s) = s.
Proof. induction p as [|c p IH]; simpl; [by destruct s | exact IH]. Qed.

Lemma prefix_split (p s : string) :
  String.prefix p s = true → s = p +:+ drop_chars (String.length p) s.
Proof.
  revert s. induction p as [|c p IH]; intros s H.
  - by destruct s.
  - destruct s as [|c' s]; simpl in H; [discriminate H|].
    destruct (ascii_dec c c') as [->|]; [|discriminate H].
    change (String c' s = String c' (p +:+ drop_chars (String.length p) s)).
    f_equal. by apply IH.
Qed.

Lemma length_app_slash (r : string) :
  String.length (r +:+ "/") = (String.length r + 1)%nat.
Proof. induction r as [|c r IH]; simpl; [done | by rewrite IH]. Qed.

(** ** Digits *)

Lemma decimal_range (c : codepoint) (d : Z) : decimal c = Some d → (0 <= d <= 9)%Z.
Proof.
  unfold decimal. destruct (List.find _ _) as [z|] eqn:Hf; [|done].
  apply find_some in Hf as [_ Hz]. intros [= <-].
  apply andb_prop in Hz as [H1 H2]. apply N.leb_le in H1. apply N.ltb_lt in H2. lia.
Qed.

Lemma digit_value_range (c : codepoint) : (0 <= digit_value c <= 9)%Z.
Proof.
  unfold digit_value. destruct (decimal c) as [d|] eqn:H; cbn; [|lia].
  by apply decimal_range in H.
Qed.

Lemma isdecimal_isdigit (c : codepoint) : isdecimal_char c = true → isdigit_char c = true.
Proof. unfold isdigit_char. by intros ->. Qed.

Lemma mapM_decimal (s : list codepoint) :
  mapM decimal s = if forallb isdecimal_char s then Some (map digit_value s) else None.
Proof.
  induction s as [|c s IH]; [done|].
  cbn [mapM forallb map]. rewrite IH.
  assert (isdecimal_char c = match decimal c with Some _ => true | None => false end)
    as -> by reflexivity.
  assert (digit_value c = default 0%Z (decimal c)) as -> by reflexivity.
  destruct (decimal c); cbn; [|done]. by destruct (forallb isdecimal_char s).
Qed.

Lemma horner_positional (ds : list Z) (acc : Z) :
  fold_left (λ a d, (10 * a + d)%Z) ds acc
  = (acc * 10 ^ Z.of_nat (length ds) + positional_value ds)%Z.
Proof.
  revert acc. induction ds as [|d ds IH]; intros acc; simpl fold_left.
  - simpl. lia.
  - rewrite IH. cbn [length positional_value].
    rewrite Nat2Z.inj_succ, Z.pow_succ_r by lia. ring.
Qed.

Lemma int_not_decimal (s : list codepoint) :
  forallb isdecimal_char s = false → int s = Raised ValueError.
Proof.
  intros H. unfold int. rewrite mapM_decimal, H. by destruct (bool_decide _).
Qed.

Lemma int_decimal (s : list codepoint) :
  s ≠ [] → forallb isdecimal_char s = true →
  int s = if (Z.of_nat (length s) <=? int_max_str_digits)%Z
          then Returned (decimal_value s) else Raised ValueError.
Proof.
  intros Hs H. unfold int. rewrite mapM_decimal, H, bool_decide_eq_false_2 by done.
  destruct (_ <=? _)%Z; [|done]. unfold decimal_value.
  rewrite horner_positional. f_equal; lia.
Qed.

Lemma int_single (c : codepoint) :
  int [c] = if isdecimal_char c then Returned (digit_value c) else Raised ValueError.
Proof.
  destruct (isdecimal_char c) eqn:Hc.
  - rewrite int_decimal by (done || cbn; by rewrite Hc).
    cbn. unfold decimal_value. cbn. f_equal. lia.
  - apply int_not_decimal. cbn. by rewrite Hc.
Qed.

Lemma mapM_int_single (l : list codepoint) :
  mapM (λ p, int [p]) l
  = if forallb isdecimal_char l then Returned (map digit_value l) else Raised ValueError.
Proof.
  induction l as [|c l IH]; [done|].
  cbn [mapM forallb map]. rewrite IH, int_single.
  destruct (isdecimal_char c); cbn; [|done]. by destruct (forallb isdecimal_char l).
Qed.

Lemma isdigit_spec (s : list codepoint) :
  isdigit s = true ↔ s ≠ [] ∧ Forall (λ c, isdigit_char c = true) s.
Proof.
  destruct s as [|c s].
  - split; [discriminate | by intros [H _]].
  - unfold isdigit. rewrite forallb_forall, List.Forall_forall. by split; [|intros [_ H]].
Qed.

Lemma forallb_isdecimal (s : list codepoint) :
  forallb isdecimal_char s = true ↔ Forall (λ c, isdecimal_char c = true) s.
Proof. by rewrite forallb_forall, List.Forall_forall. Qed.

Lemma digits_all_decimal (s : list codepoint) :
  forallb isdecimal_char (List.filter isdigit_char s) = true
  ↔ Forall (λ c, ¬ non_decimal_digit c) s.
Proof.
  rewrite forallb_forall, List.Forall_forall. unfold non_decimal_digit.
  split.
  - intros H c Hc [Hd Hn]. rewrite (H c) in Hn; [done|]. by apply filter_In.
  - intros H c Hc. apply filter_In in Hc as [Hc Hd]. specialize (H c Hc).
    destruct (isdecimal_char c); [done|]. exfalso. by apply H.
Qed.

Lemma fold_max_ge_init (l : list Z) (x : Z) : (x <= fold_left Z.max l x)%Z.
Proof.
  revert x. induction l as [|y l IH]; intros x; simpl; [lia|].
  specialize (IH (Z.max x y)). lia.
Qed.

Lemma fold_max_upper (l : list Z) (x y : Z) :
  In y l → (y <= fold_left Z.max l x)%Z.
Proof.
  revert x. induction l as [|z l IH]; intros x; simpl; [tauto|].
  intros [->|H]; [|by apply IH].
  pose proof (fold_max_ge_init l (Z.max x y)). lia.
Qed.

Lemma fold_max_attained (l : list Z) (x : Z) :
  fold_left Z.max l x = x ∨ In (fold_left Z.max l x) l.
Proof.
  revert x. induction l as [|z l IH]; intros x; simpl; [by left|].
  destruct (IH (Z.max x z)) as [H|H]; [|by right; right].
  rewrite H. destruct (Z.max_spec x z) as [[_ ->]|[_ ->]]; auto.
Qed.

Lemma py_max_spec (l : list Z) :
  l ≠ [] → ∃ m, py_max l = Returned m ∧ In m l ∧ ∀ y, In y l → (y <= m)%Z.
Proof.
  destruct l as [|x l]; [done|]. intros _. simpl.
  eexists; split; [reflexivity|]. split.
  - destruct (fold_max_attained l x) as [->|H]; auto.
  - intros y [<-|H]; [apply fold_max_ge_init | by apply fold_max_upper].
Qed.

(** ** Running the monad *)

Ltac munfold :=
  unfold mbind, M_bind, mret, M_ret, call, raise, emit, emit_all, when, try_except,
    current_files, write, mkdir, Path, attr, item in *.

Lemma world_eta (w : World) : {| files := files w; journal := journal w ++ [] |} = w.
Proof. destruct w; simpl. by rewrite app_nil_r. Qed.

Lemma writes_of_app (xs ys : list event) :
  writes_of (xs ++ ys) = writes_of xs ++ writes_of ys.
Proof. unfold writes_of. apply omap_app. Qed.

Lemma after_writes_app (fs : gmap string string) (xs ys : list (string * string)) :
  after_writes fs (xs ++ ys) = after_writes (after_writes fs xs) ys.
Proof. unfold after_writes. apply fold_left_app. Qed.

Lemma truthy_default (o : option string) :
  truthy (Some (default EmptyString o)) = truthy o.
Proof. by destruct o as [[|c s]|]. Qed.

(** Case analysis on whatever the computation branches on next. *)
Ltac case_step :=
  match goal with
  | |- context [match ?x with Returned _ => _ | Raised _ => _ end] => destruct x eqn:?
  | |- context [match ?x with Some _ => _ | None => _ end] => destruct x eqn:?
  | |- context [if ?b then _ else _] => destruct b eqn:?
  end.

Ltac run_simpl := cbn -[Nat.ltb take truthy]; simplify_eq.

Ltac run_cases :=
  munfold; run_simpl; repeat (case_step; run_simpl); rewrite <- ?app_assoc, ?app_nil_r;
  cbn -[Nat.ltb take truthy]; try congruence.

(** ** Journals *)

Lemma banners_app (xs ys : list event) : banners (xs ++ ys) = banners xs ++ banners ys.
Proof. apply omap_app. Qed.

Lemma banners_banner_cons (n : nat) (evs : list event) :
  banners (PhaseBanner n :: evs) = n :: banners evs.
Proof. reflexivity. Qed.

Lemma banners_other_cons (e : event) (evs : list event) :
  not_banner e → banners (e :: evs) = banners evs.
Proof. by destruct e. Qed.

Lemma banners_nil : banners [] = [].
Proof. reflexivity. Qed.

Lemma banners_decisions (ds : list Decision) : banners (map ShowDecision ds) = [].
Proof. induction ds as [|d ds IH]; [done | exact IH]. Qed.

Lemma phase_ran_banners (n : nat) (evs : list event) :
  phase_ran n evs ↔ In n (banners evs).
Proof.
  unfold phase_ran, banners. induction evs as [|e evs IH]; [done|].
  destruct e; cbn; rewrite IH; intuition congruence.
Qed.

Lemma banners_console_only (self : Orchestrator) (evs : list event) :
  banners evs = [] → banners (console_only self evs) = [].
Proof. unfold console_only. by destruct (console_display self). Qed.

Lemma banners_failure_events (self : Orchestrator) (e : exn) (title : string) :
  banners (failure_events self e title) = [].
Proof. unfold failure_events, console_only. by destruct (console_display self). Qed.

Lemma gate_iff (n max_phase : Z) (ready : bool) :
  (n <= max_phase)%Z ∧ ready = true ↔ (n <=? max_phase)%Z && ready = true.
Proof. rewrite andb_true_iff, Z.leb_le. tauto. Qed.

Lemma gate4_iff (max_phase : Z) (ready skip : bool) :
  (4 <= max_phase)%Z ∧ ready = true ∧ skip = false
  ↔ (4 <=? max_phase)%Z && ready && negb skip = true.
Proof. rewrite !andb_true_iff, Z.leb_le, negb_true_iff. tauto. Qed.

(** ** Confidence comparisons *)

Lemma Qlt_bool_iff (x y : Q) : Qlt_bool x y = true ↔ (x < y)%Q.
Proof.
  unfold Qlt_bool. rewrite negb_true_iff, <- not_true_iff_false, Qle_bool_iff.
  split; [apply Qnot_le_lt | apply Qlt_not_le].
Qed.

Lemma Qlt_bool_false_iff (x y : Q) : Qlt_bool x y = false ↔ (y <= x)%Q.
Proof.
  unfold Qlt_bool. rewrite negb_false_iff. apply Qle_bool_iff.
Qed.

(** ** Files and writes *)

Lemma after_writes_lookup_other (fs : gmap string string) (ws : list (string * string))
    (p : string) :
  (∀ pc, In pc ws → pc.1 ≠ p) → after_writes fs ws !! p = fs !! p.
Proof.
  revert fs. induction ws as [|[q c] ws IH]; intros fs H; [done|].
  unfold after_writes in *. cbn [fold_left]. rewrite IH.
  - apply lookup_insert_ne. apply (H (q, c)). by left.
  - intros pc Hpc. apply H. by right.
Qed.

Lemma after_writes_lookup_last (fs : gmap string string) (ws1 ws2 : list (string * string))
    (p c : string) :
  (∀ pc, In pc ws2 → pc.1 ≠ p) →
  after_writes fs (ws1 ++ (p, c) :: ws2) !! p = Some c.
Proof.
  intros H. rewrite after_writes_app.
  change (after_writes ?m ((p, c) :: ws2)) with (after_writes (<[p:=c]> m) ws2).
  rewrite after_writes_lookup_other by done. apply lookup_insert_eq.
Qed.

Lemma applicable_content (field : GenEntry → option string) (r : GenEntry) :
  applicable field r = true → field r = Some (default EmptyString (field r)).
Proof.
  unfold applicable. intros [_ H]%andb_true_iff. by destruct (field r) as [[|c s]|].
Qed.

Lemma writes_of_console_only (self : Orchestrator) (evs : list event) :
  writes_of evs = [] → writes_of (console_only self evs) = [].
Proof. unfold console_only. by destruct (console_display self). Qed.

Lemma writes_of_failure_events (self : Orchestrator) (e : exn) (title : string) :
  writes_of (failure_events self e title) = [].
Proof. unfold failure_events, console_only. by destruct (console_display self). Qed.

(** ** More on digits *)

Lemma positional_value_nonneg (ds : list Z) :
  Forall (λ d, 0 <= d)%Z ds → (0 <= positional_value ds)%Z.
Proof.
  induction 1 as [|d ds Hd _ IH]; simpl; [lia|].
  assert (0 <= 10 ^ Z.of_nat (length ds))%Z by (apply Z.pow_nonneg; lia). nia.
Qed.

Lemma digit_values_nonneg (cs : list codepoint) :
  Forall (λ d, 0 <= d)%Z (map digit_value cs).
Proof.
  induction cs as [|c cs IH]; simpl; constructor; [|done].
  apply digit_value_range.
Qed.

(** ** Disk events *)

Lemma disk_events_app (xs ys : list event) :
  disk_events (xs ++ ys) = disk_events xs ++ disk_events ys.
Proof. unfold disk_events. apply List.filter_app. Qed.

Lemma disk_events_cons_other (e : event) (evs : list event) :
  touches_disk e = false → disk_events (e :: evs) = disk_events evs.
Proof. intros H. unfold disk_events. cbn. by rewrite H. Qed.

Lemma disk_events_nil : disk_events [] = [].
Proof. reflexivity. Qed.

Lemma disk_events_decisions (ds : list Decision) : disk_events (map ShowDecision ds) = [].
Proof. induction ds as [|d ds IH]; [done | exact IH]. Qed.

Lemma disk_events_console_only (self : Orchestrator) (evs : list event) :
  disk_events evs = [] → disk_events (console_only self evs) = [].
Proof. unfold console_only. by destruct (console_display self). Qed.

Lemma disk_events_failure_events (self : Orchestrator) (e : exn) (title : string) :
  disk_events (failure_events self e title) = [].
Proof. unfold failure_events, console_only. by destruct (console_display self). Qed.

(** ** Directories made *)

Lemma mkdirs_of_app (xs ys : list event) : mkdirs_of (xs ++ ys) = mkdirs_of xs ++ mkdirs_of ys.
Proof. apply omap_app. Qed.

Lemma after_writes_frame (ws : list (string * string)) (fs fs' : gmap string string) :
  (∀ p, (∀ pc, In pc ws → pc.1 ≠ p) → fs !! p = fs' !! p) →
  after_writes fs ws = after_writes fs' ws.
Proof.
  revert fs fs'. induction ws as [|[q c] ws IH]; intros fs fs' Hout.
  - apply map_eq. intros p. apply Hout. by intros pc [].
  - unfold after_writes. cbn [fold_left fst snd]. apply IH. intros p Hp.
    destruct (decide (q = p)) as [->|Hne].
    + by rewrite !lookup_insert_eq.
    + rewrite !lookup_insert_ne by done. apply Hout.
      intros pc [<-|Hin]; [done|by apply Hp].
Qed.

Lemma after_writes_twice (ws : list (string * string)) (fs : gmap string string) :
  after_writes (after_writes fs ws) ws = after_writes fs ws.
Proof.
  apply after_writes_frame. intros p Hp. by apply after_writes_lookup_other.
Qed.

Section Properties.
Context {pathlib : Pathlib} {collab : Collaborators}.

(** ** Selector parsing *)

Lemma parse_max_phase_all (self : Orchestrator) :
  phases (config self) = str_of "all" → _parse_max_phase self = Returned MAX_PHASES.
Proof. intros H. unfold _parse_max_phase. by rewrite bool_decide_eq_true_2. Qed.

Lemma filter_isdigit_all (s : list codepoint) :
  Forall (λ c, isdigit_char c = true) s → List.filter isdigit_char s = s.
Proof. induction 1 as [|c s Hc _ IH]; cbn; [done|]. by rewrite Hc, IH. Qed.

Lemma filter_isdigit_none (s : list codepoint) :
  existsb isdigit_char s = false → List.filter isdigit_char s = [].
Proof.
  induction s as [|c s IH]; cbn; [done|].
  destruct (isdigit_char c); cbn; [done|exact IH].
Qed.

Lemma filter_isdigit_some (s : list codepoint) :
  existsb isdigit_char s = true → List.filter isdigit_char s ≠ [].
Proof.
  induction s as [|c s IH]; cbn; [done|].
  destruct (isdigit_char c); cbn; [done|exact IH].
Qed.

Lemma all_decimal_isdigit (s : list codepoint) :
  s ≠ [] → forallb isdecimal_char s = true → isdigit s = true.
Proof.
  intros Hs H. apply isdigit_spec. split; [done|].
  apply forallb_isdecimal in H. eapply List.Forall_impl; [|exact H].
  apply isdecimal_isdigit.
Qed.

Lemma exists_non_decimal_digit (s : list codepoint) :
  Exists non_decimal_digit s
  ↔ forallb isdecimal_char (List.filter isdigit_char s) = false.
Proof.
  unfold non_decimal_digit. induction s as [|c s IH]; cbn.
  - split; [by intros H; apply Exists_nil in H | discriminate].
  - rewrite Exists_cons, IH.
    destruct (isdigit_char c); cbn; [rewrite andb_false_iff|]; intuition congruence.
Qed.

(** A selector made of decimal digits only is converted as a whole. *)
Lemma parse_max_phase_digits (self : Orchestrator) :
  let s := phases (config self) in
  s ≠ str_of "all" → s ≠ [] → forallb isdecimal_char s = true →
  _parse_max_phase self
  = if (Z.of_nat (length s) <=? int_max_str_digits)%Z
    then Returned (decimal_value s) else Raised ValueError.
Proof.
  intros s Hall Hs Hdec. unfold _parse_max_phase. fold s.
  rewrite bool_decide_eq_false_2, all_decimal_isdigit by done.
  by apply int_decimal.
Qed.

(** A digit without a decimal value makes either branch raise. *)
Lemma parse_max_phase_bad_digit (self : Orchestrator) :
  let s := phases (config self) in
  s ≠ str_of "all" →
  forallb isdecimal_char (List.filter isdigit_char s) = false →
  _parse_max_phase self = Raised ValueError.
Proof.
  intros s Hall Hbad. unfold _parse_max_phase. fold s.
  rewrite bool_decide_eq_false_2 by done.
  destruct (isdigit s) eqn:Hd.
  - apply isdigit_spec in Hd as [_ Hd].
    rewrite filter_isdigit_all in Hbad by done. by apply int_not_decimal.
  - destruct (existsb isdigit_char s) eqn:He.
    + by rewrite mapM_int_single, Hbad.
    + by rewrite filter_isdigit_none in Hbad.
Qed.

(** The other selectors: the largest digit, or 1 without one. *)
Lemma parse_max_phase_mixed (self : Orchestrator) :
  let s := phases (config self) in
  s ≠ str_of "all" → isdigit s = false →
  forallb isdecimal_char (List.filter isdigit_char s) = true →
  ∃ m, _parse_max_phase self = Returned m ∧ (0 <= m <= 9)%Z ∧
       (existsb isdigit_char s = true → is_max_digit s m) ∧
       (existsb isdigit_char s = false → m = 1%Z).
Proof.
  intros s Hall Hd Hdec. unfold _parse_max_phase. fold s.
  rewrite bool_decide_eq_false_2, Hd by done.
  destruct (existsb isdigit_char s) eqn:He.
  2: { exists 1%Z. split; [done|]. split; [lia|]. by split. }
  rewrite mapM_int_single, Hdec. cbn.
  destruct (py_max_spec (map digit_value (List.filter isdigit_char s)))
    as (m & -> & Hin & Hmax).
  { intros Hnil. apply map_eq_nil in Hnil. by apply filter_isdigit_some in He. }
  exists m. split; [done|].
  apply in_map_iff in Hin as (c & <- & Hc). apply filter_In in Hc as [Hc Hcd].
  split; [apply digit_value_range|]. split; [|done]. intros _. split.
  - exists c. by split.
  - intros c' Hc' Hcd'. apply Hmax, in_map. by apply filter_In.
Qed.

(** C2, where the code fails the claim.  [str.isdigit] accepts characters
    that [int] does not convert: a selector other than "all" with such a
    character, the superscript two for one, is not given a maximum phase;
    [_parse_max_phase] raises [ValueError] on it, in the digits-only branch
    and under [max] alike. *)
Theorem non_decimal_digit_selector_raises (self : Orchestrator) :
  phases (config self) ≠ str_of "all" →
  Exists non_decimal_digit (phases (config self)) →
  _parse_max_phase self = Raised ValueError.
Proof.
  intros Hall Hbad. apply parse_max_phase_bad_digit; [done|].
  by apply exists_non_decimal_digit.
Qed.

(** ** Working-directory normalization *)

(** C9 (as amended).  Normalization removes one leading "r/" from a directory
    that begins with it, where r is the repository's own name, and returns
    any other directory unchanged; applied to a directory that does not begin
    with "r/" it is a no-op, so a second normalization changes nothing
    whenever the first result no longer begins with "r/". *)
Theorem normalize_strips_one_prefix (repo_path d : string) :
  let r := path_name repo_path in
  (∀ rest, d = (r +:+ "/") +:+ rest → _normalize_working_directory repo_path d = rest) ∧
  ((∀ rest, d ≠ (r +:+ "/") +:+ rest) → _normalize_working_directory repo_path d = d) ∧
  ((∀ rest, _normalize_working_directory repo_path d ≠ (r +:+ "/") +:+ rest) →
     _normalize_working_directory repo_path (_normalize_working_directory repo_path d)
     = _normalize_working_directory repo_path d).
Proof.
  intros r.
  assert (∀ x, (∀ rest, x ≠ (r +:+ "/") +:+ rest) →
               _normalize_working_directory repo_path x = x) as Hid.
  { intros x Hx. unfold _normalize_working_directory. fold r.
    destruct (String.prefix (r +:+ "/") x) eqn:Hp; [|done].
    apply prefix_split in Hp. by apply Hx in Hp. }
  repeat split.
  - intros rest ->. unfold _normalize_working_directory. fold r.
    rewrite prefix_app, <- length_app_slash. apply drop_chars_app.
  - apply Hid.
  - apply Hid.
Qed.

(** ** The apply loops *)

Lemma apply_create_actions_run (rs : list GenEntry) (wd : string) (w : World) :
  _apply_create_actions rs wd w
  = (Returned (),
     {| files := after_writes (files w) (planned_writes entry_content wd rs);
        journal := journal w ++ create_journal wd rs |}).
Proof.
  revert w. induction rs as [|r rs IH]; intros w.
  - simpl. unfold mret, M_ret. by rewrite world_eta.
  - cbn [_apply_create_actions]. unfold mbind at 1. unfold M_bind at 1.
    unfold planned_writes, create_journal, applicable. cbn [omap list_omap flat_map].
    fold (planned_writes entry_content wd rs). fold (create_journal wd rs).
    unfold when, _create_file, mkdir, item, write, emit, raise, target_path.
    unfold mbind, M_bind, mret, M_ret.
    destruct (entry_success r), (entry_content r) as [[|c s]|];
      cbn -[_apply_create_actions]; rewrite IH; cbn; rewrite <- ?app_assoc; reflexivity.
Qed.

Lemma apply_update_actions_run (rs : list GenEntry) (wd : string) (w : World) :
  _apply_update_actions rs wd w
  = (Returned (),
     {| files := after_writes (files w) (planned_writes entry_updated_content wd rs);
        journal := journal w ++ update_journal wd rs |}).
Proof.
  revert w. induction rs as [|r rs IH]; intros w.
  - simpl. unfold mret, M_ret. by rewrite world_eta.
  - cbn [_apply_update_actions]. unfold mbind at 1. unfold M_bind at 1.
    unfold planned_writes, update_journal, applicable. cbn [omap list_omap flat_map].
    fold (planned_writes entry_updated_content wd rs). fold (update_journal wd rs).
    unfold when, _update_file, item, write, emit, raise, target_path.
    unfold mbind, M_bind, mret, M_ret.
    destruct (entry_success r), (entry_updated_content r) as [[|c s]|];
      cbn -[_apply_update_actions]; rewrite IH; cbn; rewrite <- ?app_assoc; reflexivity.
Qed.

Lemma apply_generated_content_run (gr : GenerationResults) (wd : string) (w : World) :
  _apply_generated_content gr wd w
  = (Returned (),
     {| files := after_writes (files w)
                   (planned_writes entry_content wd (create_results gr)
                    ++ planned_writes entry_updated_content wd (update_results gr));
        journal := journal w ++ create_journal wd (create_results gr)
                             ++ update_journal wd (update_results gr) |}).
Proof.
  unfold _apply_generated_content. unfold mbind, M_bind.
  rewrite apply_create_actions_run, apply_update_actions_run. cbn.
  by rewrite after_writes_app, <- app_assoc.
Qed.

Lemma writes_of_create_journal (wd : string) (rs : list GenEntry) :
  writes_of (create_journal wd rs) = planned_writes entry_content wd rs.
Proof.
  induction rs as [|r rs IH]; [done|].
  unfold create_journal, planned_writes in *. cbn [flat_map omap list_omap].
  rewrite writes_of_app, IH. by destruct (applicable entry_content r).
Qed.

Lemma writes_of_update_journal (wd : string) (rs : list GenEntry) :
  writes_of (update_journal wd rs) = planned_writes entry_updated_content wd rs.
Proof.
  induction rs as [|r rs IH]; [done|].
  unfold update_journal, planned_writes in *. cbn [flat_map omap list_omap].
  rewrite writes_of_app, IH. by destruct (applicable entry_updated_content r).
Qed.

(** ** What the phases compute *)

Lemma phase2_run (self : Orchestrator) (result : Result) (w : World) :
  _execute_phase2 self result w
  = (Returned (phase2_result result (phase2_oracle self result)),
     {| files := files w;
        journal := journal w ++ PhaseBanner 2
                     :: phase2_events self (phase2_oracle self result) |}).
Proof.
  unfold _execute_phase2, phase2_oracle, phase2_result, phase2_events,
    _handle_phase2_error, _discover_content, _generate_strategy, failure_events,
    console_only.
  run_cases; try reflexivity.
Qed.

Lemma phase3_run (self : Orchestrator) (result : Result) (w : World) :
  let o := phase3_oracle self result (files w) in
  _execute_phase3 self result w
  = (Returned (phase3_result self result o),
     {| files := after_writes (files w) (phase3_writes self o);
        journal := journal w ++ PhaseBanner 3 :: phase3_events self o |}).
Proof.
  unfold _execute_phase3, phase3_oracle, phase3_result, phase3_events, phase3_writes,
    _handle_phase3_error, _generate_content, failure_events, console_only.
  munfold. run_simpl.
  repeat (first [rewrite apply_generated_content_run | case_step]; run_simpl);
    rewrite <- ?app_assoc; cbn; rewrite <- ?app_assoc, ?app_nil_r; try congruence;
    reflexivity.
Qed.

Lemma phase4_run (self : Orchestrator) (result : Result) (w : World) :
  let o := phase4_oracle self result (files w) in
  _execute_phase4 self result w
  = (Returned (phase4_result self result o),
     {| files := after_writes (files w) (phase4_writes self o);
        journal := journal w ++ PhaseBanner 4 :: phase4_events self o |}).
Proof.
  unfold _execute_phase4, phase4_oracle, phase4_result, phase4_events, phase4_writes,
    _handle_phase4_error, _run_toc_phase, _apply_toc_changes, toc_applies,
    failure_events, console_only.
  munfold. run_simpl.
  repeat (first [rewrite truthy_default in * | case_step]; run_simpl);
    rewrite <- ?app_assoc, ?app_nil_r; try congruence; reflexivity.
Qed.

Lemma phase1_run (self : Orchestrator) (w : World) :
  _execute_phase1 self w
  = (phase1_outcome self,
     {| files := files w; journal := journal w ++ PhaseBanner 1 :: phase1_events self |}).
Proof.
  unfold phase1_events, phase1_outcome, _execute_phase1, _detect_directory,
    auto_confirm_check, console_only.
  run_cases; try reflexivity; simpl in *; congruence.
Qed.

Lemma phase1_outcome_fresh (self : Orchestrator) (r : Result) :
  phase1_outcome self = Returned r →
  content_strategy r = None ∧ strategy_ready r = false ∧
  generation_results r = None ∧ generation_ready r = false ∧
  toc_results r = None ∧ toc_ready r = false.
Proof.
  unfold phase1_outcome, _execute_phase1, _detect_directory, auto_confirm_check.
  run_cases; intros; simplify_eq; done.
Qed.

(** ** Banners and fields left alone by each phase *)

Lemma banners_create_journal (wd : string) (rs : list GenEntry) :
  banners (create_journal wd rs) = [].
Proof.
  induction rs as [|r rs IH]; [done|].
  unfold create_journal in *. cbn [flat_map]. rewrite banners_app, IH.
  by destruct (applicable entry_content r).
Qed.

Lemma banners_update_journal (wd : string) (rs : list GenEntry) :
  banners (update_journal wd rs) = [].
Proof.
  induction rs as [|r rs IH]; [done|].
  unfold update_journal in *. cbn [flat_map]. rewrite banners_app, IH.
  by destruct (applicable entry_updated_content r).
Qed.

Lemma banners_phase1_events (self : Orchestrator) : banners (phase1_events self) = [].
Proof.
  unfold phase1_events, _execute_phase1, _detect_directory, auto_confirm_check.
  run_cases; reflexivity.
Qed.

Lemma banners_phase2_events (self : Orchestrator) (o : outcome ContentStrategy) :
  banners (phase2_events self o) = [].
Proof.
  destruct o as [s|e]; [|by apply banners_console_only].
  apply banners_console_only. cbn -[Nat.ltb take].
  rewrite !banners_app, banners_decisions. by destruct (5 <? _)%nat.
Qed.

Lemma banners_phase3_events (self : Orchestrator) (o : outcome (string * GenerationResults)) :
  banners (phase3_events self o) = [].
Proof.
  destruct o as [[wd gr]|e]; [|apply banners_failure_events].
  unfold phase3_events.
  destruct (apply_changes (config self));
    rewrite ?banners_app, ?banners_create_journal, ?banners_update_journal,
      ?banners_console_only; done.
Qed.

Lemma banners_phase4_events (self : Orchestrator) (o : outcome (string * TocResults)) :
  banners (phase4_events self o) = [].
Proof.
  destruct o as [[wd toc]|e]; [|apply banners_failure_events].
  unfold phase4_events.
  destruct (toc_applies self toc), (truthy (toc_content toc)),
    (toc_success toc), (toc_changes_made toc);
    rewrite ?banners_app, ?banners_console_only; done.
Qed.

Lemma phase2_result_fields (result : Result) (o : outcome ContentStrategy) :
  directory_ready (phase2_result result o) = directory_ready result ∧
  generation_ready (phase2_result result o) = generation_ready result ∧
  toc_ready (phase2_result result o) = toc_ready result.
Proof. by destruct o. Qed.

Lemma phase3_result_fields (self : Orchestrator) (result : Result)
    (o : outcome (string * GenerationResults)) :
  directory_ready (phase3_result self result o) = directory_ready result ∧
  strategy_ready (phase3_result self result o) = strategy_ready result ∧
  content_strategy (phase3_result self result o) = content_strategy result ∧
  toc_ready (phase3_result self result o) = toc_ready result.
Proof. by destruct o as [[wd gr]|e]. Qed.

Lemma phase4_result_fields (self : Orchestrator) (result : Result)
    (o : outcome (string * TocResults)) :
  directory_ready (phase4_result self result o) = directory_ready result ∧
  strategy_ready (phase4_result self result o) = strategy_ready result ∧
  content_strategy (phase4_result self result o) = content_strategy result ∧
  generation_ready (phase4_result self result o) = generation_ready result.
Proof. by destruct o as [[wd toc]|e]. Qed.

(** ** The workflow *)

Ltac journal_of_run :=
  unfold journal_extends; cbn; rewrite <- ?app_assoc; cbn; reflexivity.

Ltac banners_of_run :=
  repeat first
    [ rewrite banners_app
    | rewrite banners_banner_cons
    | rewrite banners_other_cons by exact I
    | rewrite banners_phase1_events
    | rewrite banners_phase2_events
    | rewrite banners_phase3_events
    | rewrite banners_phase4_events
    | rewrite banners_failure_events
    | rewrite banners_console_only by reflexivity
    | rewrite banners_nil ];
  cbn [app In].

(** C1.  In every run, Phase 2, 3 or 4 executes only if the parsed maximum
    phase reaches it and the readiness flag of the phase before it is set
    (and, for Phase 4, the skip-TOC flag is not set); these conditions are
    also sufficient.  A run that Phase 1 aborts executes none of them. *)
Theorem phase_gating (self : Orchestrator) (w : World) :
  ∃ evs, journal_extends w (execute self w).2 evs ∧
    match (execute self w).1 with
    | Raised _ => ¬ phase_ran 2 evs ∧ ¬ phase_ran 3 evs ∧ ¬ phase_ran 4 evs
    | Returned result =>
        ∃ max_phase, _parse_max_phase self = Returned max_phase ∧
          (phase_ran 2 evs ↔ (2 <= max_phase)%Z ∧ directory_ready result = true) ∧
          (phase_ran 3 evs ↔ (3 <= max_phase)%Z ∧ strategy_ready result = true) ∧
          (phase_ran 4 evs ↔
             (4 <= max_phase)%Z ∧ generation_ready result = true
             ∧ skip_toc (config self) = false)
    end.
Proof.
  unfold execute. unfold mbind, M_bind, call.
  destruct (_parse_max_phase self) as [mp|e] eqn:Hp.
  2: { exists []. split; [unfold journal_extends; cbn; by rewrite app_nil_r|].
       unfold phase_ran. cbn. tauto. }
  rewrite phase1_run. destruct (phase1_outcome self) as [r1|e] eqn:H1.
  2: { eexists. split; [journal_of_run|]. cbn [fst].
       rewrite !phase_ran_banners. banners_of_run. intuition lia. }
  destruct ((2 <=? mp)%Z && directory_ready r1) eqn:G2; [rewrite phase2_run|];
    cbn -[phase2_result phase2_events phase2_oracle].
  all: match goal with
       | |- context [(3 <=? ?m)%Z && strategy_ready ?r] =>
           destruct ((3 <=? m)%Z && strategy_ready r) eqn:G3; [rewrite phase3_run|]
       end; cbn -[phase2_result phase2_events phase2_oracle phase3_result phase3_events
                  phase3_oracle phase3_writes].
  all: match goal with
       | |- context [(4 <=? ?m)%Z && generation_ready ?r && negb ?s] =>
           destruct ((4 <=? m)%Z && generation_ready r && negb s) eqn:G4;
           [rewrite phase4_run | destruct ((4 <=? m)%Z && s) eqn:G4'; unfold when;
                                 [destruct (console_display self)|]]
       end; unfold mret, M_ret, emit; cbn [fst snd].
  all: eexists; (split; [journal_of_run|]); eexists; (split; [reflexivity|]).
  all: rewrite !phase_ran_banners, gate4_iff, !gate_iff.
  all: rewrite ?(proj1 (phase4_result_fields _ _ _)),
         ?(proj1 (proj2 (phase4_result_fields _ _ _))),
         ?(proj2 (proj2 (proj2 (phase4_result_fields _ _ _)))),
         ?(proj1 (phase3_result_fields _ _ _)),
         ?(proj1 (proj2 (phase3_result_fields _ _ _))),
         ?(proj1 (phase2_result_fields _ _)).
  all: rewrite ?G2, ?G3, ?G4.
  all: banners_of_run.
  all: intuition (try lia; try discriminate).
Qed.

(** ** Phase 2 *)

Lemma phase2_raises_iff (self : Orchestrator) (result : Result) (e : exn) :
  phase2_raises self result e ↔ phase2_oracle self result = Raised e.
Proof.
  unfold phase2_raises, phase2_oracle.
  destruct (working_directory_full_path result) as [wd|].
  2: { split; [intros [[_ ->]|(wd & Hwd & _)]; congruence | intros [= <-]; by left]. }
  cbv zeta.
  destruct (discovery_process _ _ _) as [chunks|e1] eqn:Hd.
  2: { split.
       - intros [[Hwd _]|(wd' & [= <-] & H)]; [done|].
         destruct H as [H|(chunks & H & _)]; congruence.
       - intros [= <-]. right. exists wd. split; [done|]. left. exact Hd. }
  destruct (strategy_process _ _ _ _ _) as [strategy|e2] eqn:Hs.
  2: { split.
       - intros [[Hwd _]|(wd' & [= <-] & H)]; [done|].
         destruct H as [H|(chunks' & H & H')]; [congruence|].
         rewrite Hd in H. injection H as <-.
         destruct H' as [H'|(strategy & H' & _)]; congruence.
       - intros [= <-]. right. exists wd. split; [done|]. right.
         exists chunks. split; [done|]. left. exact Hs. }
  split.
  - intros [[Hwd _]|(wd' & [= <-] & H)]; [done|].
    destruct H as [H|(chunks' & H & H')]; [congruence|].
    rewrite Hd in H. injection H as <-.
    destruct H' as [H'|(strategy' & H' & H'')]; [congruence|].
    rewrite Hs in H'. injection H' as <-. exact H''.
  - intros H. right. exists wd. split; [done|]. right.
    exists chunks. split; [done|]. right. exists strategy. by split.
Qed.

Lemma phase2_oracle_confirmed (self : Orchestrator) (result : Result) (wd : string)
    (chunks : list string) (strategy confirmed : ContentStrategy) :
  working_directory_full_path result = Some wd →
  discovery_process wd (extract_name (repo_url (config self))) (working_directory result)
  = Returned chunks →
  strategy_process chunks (material_summaries result) (config self)
    (extract_name (repo_url (config self))) (working_directory result)
  = Returned strategy →
  strategy_confirm strategy = Returned confirmed →
  phase2_oracle self result = Returned confirmed.
Proof. intros Hwd Hd Hs Hc. unfold phase2_oracle. by rewrite Hwd, Hd, Hs. Qed.

Lemma phase2_oracle_returned (self : Orchestrator) (result : Result)
    (confirmed : ContentStrategy) :
  phase2_oracle self result = Returned confirmed →
  ∃ wd chunks strategy,
    working_directory_full_path result = Some wd ∧
    discovery_process wd (extract_name (repo_url (config self))) (working_directory result)
    = Returned chunks ∧
    strategy_process chunks (material_summaries result) (config self)
      (extract_name (repo_url (config self))) (working_directory result)
    = Returned strategy ∧
    strategy_confirm strategy = Returned confirmed.
Proof.
  unfold phase2_oracle.
  destruct (working_directory_full_path result) as [wd|]; [|done]. cbv zeta.
  destruct (discovery_process _ _ _) as [chunks|] eqn:Hd; [|done].
  destruct (strategy_process _ _ _ _ _) as [strategy|] eqn:Hs; [|done].
  intros Hc. by exists wd, chunks, strategy.
Qed.

(** C3.  Phase 2 always returns with a strategy in the result, and
    [strategy_ready] is set exactly when that strategy's confidence is above
    0.  The strategy is the one the confirmation step returned, when
    discovery, strategy generation and confirmation all return; it is the
    substituted failure strategy, and [strategy_ready] is unset, when the
    working directory path is unusable or one of the three raises; and one
    of the two is the case.  A confidence of exactly 0 leaves
    [strategy_ready] unset. *)
Theorem strategy_ready_iff_confident (self : Orchestrator) (result : Result) (w : World) :
  ∃ result' w' strategy,
    _execute_phase2 self result w = (Returned result', w') ∧
    content_strategy result' = Some strategy ∧
    (strategy_ready result' = true ↔ (0 < strategy_confidence strategy)%Q) ∧
    ((strategy_confidence strategy == 0)%Q → strategy_ready result' = false) ∧
    (∀ e, phase2_raises self result e →
       strategy = failure_strategy (str_exn e) ∧ strategy_ready result' = false) ∧
    (∀ wd chunks generated confirmed,
       working_directory_full_path result = Some wd →
       discovery_process wd (extract_name (repo_url (config self)))
         (working_directory result) = Returned chunks →
       strategy_process chunks (material_summaries result) (config self)
         (extract_name (repo_url (config self))) (working_directory result)
       = Returned generated →
       strategy_confirm generated = Returned confirmed →
       strategy = confirmed) ∧
    ((∃ e, phase2_raises self result e) ∨
     ∃ wd chunks generated,
       working_directory_full_path result = Some wd ∧
       discovery_process wd (extract_name (repo_url (config self)))
         (working_directory result) = Returned chunks ∧
       strategy_process chunks (material_summaries result) (config self)
         (extract_name (repo_url (config self))) (working_directory result)
       = Returned generated ∧
       strategy_confirm generated = Returned strategy).
Proof.
  rewrite phase2_run.
  destruct (phase2_oracle self result) as [s|e0] eqn:Ho; cbn.
  - exists (with_strategy result (Some s) (Qlt_bool 0 (strategy_confidence s))).
    eexists. exists s.
    split; [reflexivity|]. split; [reflexivity|]. cbn.
    split; [apply Qlt_bool_iff|]. split; [|split; [|split]].
    + intros H0. apply Qlt_bool_false_iff. rewrite H0. apply Qle_refl.
    + intros e He. apply phase2_raises_iff in He. congruence.
    + intros wd chunks generated confirmed Hwd Hd Hs Hc.
      rewrite (phase2_oracle_confirmed self result wd chunks generated confirmed
                 Hwd Hd Hs Hc) in Ho. congruence.
    + right. destruct (phase2_oracle_returned self result s Ho)
        as (wd & chunks & generated & H). by exists wd, chunks, generated.
  - exists (with_strategy result (Some (failure_strategy (str_exn e0))) false).
    eexists. exists (failure_strategy (str_exn e0)).
    split; [reflexivity|]. split; [reflexivity|]. cbn.
    split; [|split; [done|split; [|split]]].
    + split; [done|]. intros H. by apply Qlt_irrefl in H.
    + intros e He. apply phase2_raises_iff in He. split; [congruence|done].
    + intros wd chunks generated confirmed Hwd Hd Hs Hc.
      rewrite (phase2_oracle_confirmed self result wd chunks generated confirmed
                 Hwd Hd Hs Hc) in Ho. congruence.
    + left. exists e0. by apply phase2_raises_iff.
Qed.

(** C6.  Phase 2 never raises.  When its discovery, strategy generation or
    confirmation raises, the result carries the failure strategy (confidence
    0, with the error) and [strategy_ready] is unset; in the whole workflow
    Phase 2 has then run and Phases 3 and 4 have not. *)
Theorem phase2_contains_exceptions (self : Orchestrator) :
  (∀ result w, ∃ result' w', _execute_phase2 self result w = (Returned result', w')) ∧
  (∀ result w e, phase2_raises self result e →
     ∃ w', _execute_phase2 self result w
           = (Returned (with_strategy result (Some (failure_strategy (str_exn e))) false),
              w')) ∧
  (∀ w max_phase r1 e,
     _parse_max_phase self = Returned max_phase →
     (_execute_phase1 self w).1 = Returned r1 →
     (2 <= max_phase)%Z →
     directory_ready r1 = true →
     phase2_raises self r1 e →
     ∃ result evs,
       (execute self w).1 = Returned result ∧
       journal_extends w (execute self w).2 evs ∧
       phase_ran 2 evs ∧ ¬ phase_ran 3 evs ∧ ¬ phase_ran 4 evs ∧
       strategy_ready result = false ∧
       ∃ s, content_strategy result = Some s ∧
            (strategy_confidence s == 0)%Q ∧ strategy_error s = Some (str_exn e)).
Proof.
  split; [|split].
  - intros result w. rewrite phase2_run. eauto.
  - intros result w e He. apply phase2_raises_iff in He.
    rewrite phase2_run, He. cbn. eauto.
  - intros w mp r1 e Hp H1 Hmp Hdir He.
    apply phase2_raises_iff in He.
    rewrite phase1_run in H1. cbn [fst] in H1.
    destruct (phase1_outcome_fresh self r1 H1) as (_ & _ & _ & Hgen & _).
    unfold execute. unfold mbind, M_bind, call.
    rewrite Hp, phase1_run, H1.
    assert ((2 <=? mp)%Z && directory_ready r1 = true) as ->
      by (apply gate_iff; by split).
    rewrite phase2_run, He.
    cbn -[failure_events]. rewrite andb_false_r. cbn -[failure_events].
    rewrite Hgen, andb_false_r. cbn -[failure_events].
    exists (with_strategy r1 (Some (failure_strategy (str_exn e))) false).
    destruct ((4 <=? mp)%Z && skip_toc (config self)); unfold when;
      [destruct (console_display self) eqn:Hc|]; unfold mret, M_ret, emit;
      cbn -[failure_events];
      (eexists; split; [reflexivity|]; split; [journal_of_run|]);
      rewrite !phase_ran_banners;
      banners_of_run;
      (split; [simpl; tauto|]; split; [simpl; intuition lia|];
       split; [simpl; intuition lia|]; split; [done|]);
      exists (failure_strategy (str_exn e)); done.
Qed.

(** ** Phase 1 in headless mode *)

Lemma phase1_headless_outcome (self : Orchestrator) (rp st : string) (ms : list string) :
  auto_confirm (config self) = true →
  clone_or_update (repo_url (config self)) (work_dir (config self)) = Returned rp →
  material_process (support_materials (config self)) rp = Returned ms →
  get_structure rp (max_repo_depth (config self)) = Returned st →
  phase1_outcome self =
    match detector_process rp st ms with
    | Raised e0 => Raised (RuntimeError (LLMFailed (str_exn e0)))
    | Returned p =>
        if negb (truthy (llm_working_directory p)) then
          Raised (RuntimeError
                    (SelectionFailed
                       (default "LLM returned empty directory"%string (llm_error p))))
        else if Qlt_bool (from_option_Q 0 (llm_confidence p)) (7 # 10) then
          Raised (RuntimeError (ConfidenceTooLow (from_option_Q 0 (llm_confidence p))))
        else
          match dir_confirm (Some p) st false EmptyString with
          | Returned c =>
              match _setup_directory rp (confirmed_working_directory c) with
              | Returned setup => Returned (_create_phase1_result self c setup rp ms)
              | Raised e => Raised e
              end
          | Raised e => Raised e
          end
    end.
Proof.
  intros Hauto Hclone Hmat Hstruct.
  unfold phase1_outcome, _execute_phase1, _detect_directory, auto_confirm_check.
  munfold. cbn -[truthy _setup_directory]. rewrite Hclone. cbn -[truthy _setup_directory].
  rewrite Hmat. cbn -[truthy _setup_directory].
  rewrite Hstruct, Hauto. cbn -[truthy _setup_directory].
  destruct (detector_process rp st ms) as [p|e0]; cbn -[truthy _setup_directory]; [|done].
  destruct (truthy (llm_working_directory p)); cbn -[_setup_directory]; [|done].
  destruct (Qlt_bool _ _); cbn -[_setup_directory]; [done|].
  destruct (dir_confirm _ _ _ _) as [c|e]; cbn -[_setup_directory]; [|done].
  destruct (_setup_directory rp _); cbn; [|done].
  by destruct (console_display self).
Qed.

Lemma phase1_before_validation (self : Orchestrator) :
  (∀ e, clone_or_update (repo_url (config self)) (work_dir (config self)) = Raised e →
        phase1_outcome self = Raised e) ∧
  (∀ rp e,
     clone_or_update (repo_url (config self)) (work_dir (config self)) = Returned rp →
     material_process (support_materials (config self)) rp = Raised e →
     phase1_outcome self = Raised e) ∧
  (∀ rp ms e,
     clone_or_update (repo_url (config self)) (work_dir (config self)) = Returned rp →
     material_process (support_materials (config self)) rp = Returned ms →
     get_structure rp (max_repo_depth (config self)) = Raised e →
     phase1_outcome self = Raised e).
Proof.
  unfold phase1_outcome, _execute_phase1. munfold. cbn.
  split; [|split].
  - intros e ->. reflexivity.
  - intros rp e -> . cbn. intros ->. reflexivity.
  - intros rp ms e ->. cbn. intros ->. cbn. intros ->. reflexivity.
Qed.

(** C4 (as amended).  In headless mode an exception of the clone, the
    material processor or the structure scan aborts Phase 1 as it is.  With
    these three at hand, the validation of the proposal raises in exactly
    three cases, each with its own [RuntimeError]: the oracle raised, the
    proposed working directory is empty or absent, or the confidence is
    below 0.70.  In every other case, and so at confidence 0.70 with a
    working directory, the validation raises nothing and the phase ends as
    the confirmation step and the directory setup end: with the exception
    either of them raises, or else with the result. *)
Theorem headless_phase1_fatal_cases (self : Orchestrator) (w : World) :
  auto_confirm (config self) = true →
  let ended := (_execute_phase1 self w).1 in
  (∀ e, clone_or_update (repo_url (config self)) (work_dir (config self)) = Raised e →
        ended = Raised e) ∧
  (∀ rp e,
     clone_or_update (repo_url (config self)) (work_dir (config self)) = Returned rp →
     material_process (support_materials (config self)) rp = Raised e →
     ended = Raised e) ∧
  (∀ rp ms e,
     clone_or_update (repo_url (config self)) (work_dir (config self)) = Returned rp →
     material_process (support_materials (config self)) rp = Returned ms →
     get_structure rp (max_repo_depth (config self)) = Raised e →
     ended = Raised e) ∧
  (∀ rp ms st,
     clone_or_update (repo_url (config self)) (work_dir (config self)) = Returned rp →
     material_process (support_materials (config self)) rp = Returned ms →
     get_structure rp (max_repo_depth (config self)) = Returned st →
     let proposal := detector_process rp st ms in
     (headless_rejects proposal → ∃ why, ended = Raised (RuntimeError why)) ∧
     (∀ e0, proposal = Raised e0 →
        ended = Raised (RuntimeError (LLMFailed (str_exn e0)))) ∧
     (∀ p, proposal = Returned p → truthy (llm_working_directory p) = false →
        ended = Raised (RuntimeError
                          (SelectionFailed
                             (default "LLM returned empty directory"%string
                                (llm_error p))))) ∧
     (∀ p, proposal = Returned p → truthy (llm_working_directory p) = true →
        (from_option_Q 0 (llm_confidence p) < 7 # 10)%Q →
        ended = Raised (RuntimeError
                          (ConfidenceTooLow (from_option_Q 0 (llm_confidence p))))) ∧
     (∀ p, proposal = Returned p → truthy (llm_working_directory p) = true →
        (7 # 10 <= from_option_Q 0 (llm_confidence p))%Q →
        ¬ headless_rejects proposal ∧
        (∀ e, dir_confirm (Some p) st false EmptyString = Raised e → ended = Raised e) ∧
        (∀ c e, dir_confirm (Some p) st false EmptyString = Returned c →
                _setup_directory rp (confirmed_working_directory c) = Raised e →
                ended = Raised e) ∧
        (∀ c setup, dir_confirm (Some p) st false EmptyString = Returned c →
                    _setup_directory rp (confirmed_working_directory c) = Returned setup →
                    ended = Returned (_create_phase1_result self c setup rp ms)))).
Proof.
  intros Hauto ended. subst ended. rewrite phase1_run. cbn [fst].
  destruct (phase1_before_validation self) as (Hclone & Hmat & Hstruct).
  split; [exact Hclone|]. split; [exact Hmat|]. split; [exact Hstruct|].
  clear Hclone Hmat Hstruct. intros rp ms st Hclone Hmat Hstruct. cbv zeta.
  rewrite (phase1_headless_outcome self rp st ms Hauto Hclone Hmat Hstruct).
  unfold headless_rejects.
  destruct (detector_process rp st ms) as [p|e0] eqn:Hprop.
  2: { split; [eauto|]. split; [by intros ? [= <-]|]. repeat split; intros; done. }
  destruct (truthy (llm_working_directory p)) eqn:Hwd; cbn [negb].
  2: { split; [eauto|]. split; [done|]. split; [by intros ? [= <-]|].
       split; intros ? [= <-]; congruence. }
  destruct (Qlt_bool _ _) eqn:Hlt.
  - apply Qlt_bool_iff in Hlt.
    split; [eauto|]. split; [done|]. split; [intros ? [= <-]; congruence|].
    split; [by intros ? [= <-]|]. intros ? [= <-] _ Hge.
    exfalso. by apply (Qlt_not_le _ _ Hlt).
  - apply Qlt_bool_false_iff in Hlt.
    split.
    { intros [H|H]; [done|]. exfalso. by apply (Qlt_not_le _ _ H). }
    split; [done|]. split; [intros ? [= <-]; congruence|].
    split; [intros ? [= <-] _ H; exfalso; by apply (Qlt_not_le _ _ H)|].
    intros ? [= <-] _ _. split.
    { intros [H|H]; [done|]. by apply (Qlt_not_le _ _ H). }
    split; [by intros e ->|].
    split; [by intros c e -> ->|by intros c setup -> ->].
Qed.

(** ** The apply engine *)

Lemma planned_writes_app (field : GenEntry → option string) (wd : string)
    (l1 l2 : list GenEntry) :
  planned_writes field wd (l1 ++ l2)
  = planned_writes field wd l1 ++ planned_writes field wd l2.
Proof. unfold planned_writes. apply omap_app. Qed.

Lemma in_planned_writes (field : GenEntry → option string) (wd : string)
    (rs : list GenEntry) (pc : string * string) :
  In pc (planned_writes field wd rs) →
  ∃ r, In r rs ∧ applicable field r = true ∧ pc.1 = target_path wd r.
Proof.
  induction rs as [|r rs IH]; [done|].
  unfold planned_writes in *. cbn [omap list_omap].
  destruct (applicable field r) eqn:Hr; cbn.
  - intros [<-|H]; [exists r; split; [by left | done]|].
    destruct (IH H) as (r' & ? & ?). exists r'. split; [by right | done].
  - intros H. destruct (IH H) as (r' & ? & ?). exists r'. split; [by right | done].
Qed.

Lemma writes_of_phase3_events (self : Orchestrator)
    (o : outcome (string * GenerationResults)) :
  writes_of (phase3_events self o) = phase3_writes self o.
Proof.
  destruct o as [[wd gr]|e]; [|apply writes_of_failure_events].
  unfold phase3_events, phase3_writes.
  destruct (apply_changes (config self));
    rewrite ?writes_of_app, ?writes_of_create_journal, ?writes_of_update_journal,
      ?writes_of_console_only, ?app_nil_r; done.
Qed.

Lemma writes_of_phase4_events (self : Orchestrator) (o : outcome (string * TocResults)) :
  writes_of (phase4_events self o) = phase4_writes self o.
Proof.
  destruct o as [[wd toc]|e]; [|apply writes_of_failure_events].
  unfold phase4_events, phase4_writes.
  destruct (toc_applies self toc), (truthy (toc_content toc)),
    (toc_success toc), (toc_changes_made toc);
    rewrite ?writes_of_app, ?writes_of_console_only; done.
Qed.

(** C7.  Applying the generation results always completes, and the files it
    writes are, in this order: the CREATE results that succeeded and carry
    content, in the order of [create_results], then the UPDATE results that
    succeeded and carry updated content, in the order of [update_results].
    Every other entry is skipped. *)
Theorem creates_written_before_updates (gr : GenerationResults) (wd : string) (w : World) :
  ∃ w' evs,
    _apply_generated_content gr wd w = (Returned (), w') ∧
    journal_extends w w' evs ∧
    writes_of evs
    = planned_writes entry_content wd (create_results gr)
      ++ planned_writes entry_updated_content wd (update_results gr).
Proof.
  rewrite apply_generated_content_run. eexists _, _.
  split; [reflexivity|]. split; [reflexivity|].
  by rewrite writes_of_app, writes_of_create_journal, writes_of_update_journal.
Qed.

Lemma phase3_oracle_returned (self : Orchestrator) (result : Result) (fs : gmap string string)
    (wd : string) (gr : GenerationResults) :
  working_directory_full_path result = Some wd →
  (console_display self = true → is_Some (content_strategy result)) →
  generator_process fs (content_strategy result) (material_summaries result) wd
    (extract_name (repo_url (config self))) (working_directory result) = Returned gr →
  phase3_oracle self result fs = Returned (wd, gr).
Proof.
  intros Hwd Hs Hg. unfold phase3_oracle. rewrite Hwd. cbv zeta. rewrite Hg.
  destruct (console_display self); [|done].
  by destruct (Hs eq_refl) as [s ->].
Qed.

(** C8 (as amended).  Phase 3 writes files only in apply mode: in preview
    mode the files are left as they were, whatever the generator did.  When
    the generator returns, the results are annotated [applied=False] in
    preview mode and [applied=True] in apply mode, and in apply mode every
    successful CREATE result with non-empty content whose file no later
    applicable result targets is afterwards found at its path under the
    working directory, holding exactly that content.  (With a console
    display the generator is only reached when the result has a strategy:
    that flow reads its decisions first.) *)
Theorem phase3_apply_semantics (self : Orchestrator) (result : Result) (w : World) :
  ∃ result' w' evs,
    _execute_phase3 self result w = (Returned result', w') ∧
    journal_extends w w' evs ∧
    (apply_changes (config self) = false → files w' = files w ∧ writes_of evs = []) ∧
    (∀ wd gr,
       working_directory_full_path result = Some wd →
       (console_display self = true → is_Some (content_strategy result)) →
       generator_process (files w) (content_strategy result) (material_summaries result) wd
         (extract_name (repo_url (config self))) (working_directory result) = Returned gr →
       generation_results result'
       = Some (set_generation_applied gr (apply_changes (config self))) ∧
       (apply_changes (config self) = true →
        ∀ before r after,
          create_results gr = before ++ r :: after →
          entry_success r = true →
          truthy (entry_content r) = true →
          (∀ r', In r' after → applicable entry_content r' = true →
                 target_path wd r' ≠ target_path wd r) →
          (∀ r', In r' (update_results gr) → applicable entry_updated_content r' = true →
                 target_path wd r' ≠ target_path wd r) →
          files w' !! target_path wd r = entry_content r)).
Proof.
  rewrite phase3_run. cbv zeta. eexists _, _, _.
  split; [reflexivity|]. split; [reflexivity|]. cbn [files].
  split.
  - intros Hpreview.
    change (writes_of (PhaseBanner 3 :: ?evs)) with (writes_of evs).
    rewrite writes_of_phase3_events.
    assert (phase3_writes self (phase3_oracle self result (files w)) = []) as ->; [|done].
    unfold phase3_writes. destruct (phase3_oracle _ _ _) as [[wd gr]|e]; [|done].
    by rewrite Hpreview.
  - intros wd gr Hwd Hs Hg.
    rewrite (phase3_oracle_returned self result (files w) wd gr Hwd Hs Hg).
    split; [reflexivity|].
    intros Happly before r after Hcreate Hok Hcontent Hafter Hupdates.
    cbn. rewrite Happly, Hcreate, planned_writes_app.
    assert (applicable entry_content r = true) as Hr
      by (unfold applicable; by rewrite Hok, Hcontent).
    unfold planned_writes at 2. cbn [omap list_omap]. rewrite Hr. cbn [mbind option_bind].
    fold (planned_writes entry_content wd after).
    rewrite <- app_assoc. cbn [app].
    rewrite (applicable_content entry_content r Hr) at 2.
    apply after_writes_lookup_last.
    intros pc [Hpc|Hpc]%in_app_or;
      apply in_planned_writes in Hpc as (r' & Hin & Hr' & ->); eauto.
Qed.

(** ** Phase 4 *)

Lemma phase4_oracle_returned (self : Orchestrator) (result : Result) (fs : gmap string string)
    (wd : string) (gr : GenerationResults) (toc : TocResults) :
  working_directory_full_path result = Some wd →
  generation_results result = Some gr →
  toc_process fs wd (created_files gr) (updated_files gr)
    (decisions_of (content_strategy result)) = Returned toc →
  phase4_oracle self result fs = Returned (wd, toc).
Proof. intros Hwd Hgr Htoc. unfold phase4_oracle. by rewrite Hwd, Hgr, Htoc. Qed.

(** X20.  When the TOC processor returns, the manifest [TOC.yml] under the
    working directory is overwritten wholesale with the returned content
    when apply mode is enabled, the results report success and changes, and
    the content is not empty; in every other case Phase 4 writes no file. *)
Theorem toc_manifest_written_iff (self : Orchestrator) (result : Result) (w : World)
    (wd : string) (gr : GenerationResults) (toc : TocResults) :
  working_directory_full_path result = Some wd →
  generation_results result = Some gr →
  toc_process (files w) wd (created_files gr) (updated_files gr)
    (decisions_of (content_strategy result)) = Returned toc →
  let applies :=
    apply_changes (config self) && toc_success toc && toc_changes_made toc in
  ∃ result' w' evs,
    _execute_phase4 self result w = (Returned result', w') ∧
    journal_extends w w' evs ∧
    (applies = true → ∀ content,
       toc_content toc = Some content → content ≠ EmptyString →
       files w' = <[joinpath wd "TOC.yml" := content]> (files w) ∧
       writes_of evs = [(joinpath wd "TOC.yml", content)]) ∧
    (applies = false ∨ truthy (toc_content toc) = false →
       files w' = files w ∧ writes_of evs = []).
Proof.
  intros Hwd Hgr Htoc applies.
  rewrite phase4_run. cbv zeta.
  rewrite (phase4_oracle_returned self result (files w) wd gr toc Hwd Hgr Htoc).
  eexists _, _, _.
  split; [reflexivity|]. split; [reflexivity|].
  change (writes_of (PhaseBanner 4 :: ?evs)) with (writes_of evs).
  rewrite writes_of_phase4_events. cbn [files phase4_writes].
  fold applies. change (toc_applies self toc) with applies.
  split.
  - intros -> content Hc Hne. rewrite Hc. cbn.
    destruct content; [done|]. by cbn.
  - intros [-> | ->]; rewrite ?andb_false_r; by cbn.
Qed.

(** C10.  Whenever the TOC processor returns, Phase 4 sets [toc_ready],
    whatever the returned results say: when they report failure the result
    still has [toc_ready] set, next to [success=False] and [applied=False]. *)
Theorem toc_ready_whenever_processor_returns (self : Orchestrator) (result : Result)
    (w : World) (wd : string) (gr : GenerationResults) (toc : TocResults) :
  working_directory_full_path result = Some wd →
  generation_results result = Some gr →
  toc_process (files w) wd (created_files gr) (updated_files gr)
    (decisions_of (content_strategy result)) = Returned toc →
  ∃ result' w' toc',
    _execute_phase4 self result w = (Returned result', w') ∧
    toc_ready result' = true ∧
    toc_results result' = Some toc' ∧
    toc_success toc' = toc_success toc ∧
    (toc_success toc = false → toc_applied toc' = Some false).
Proof.
  intros Hwd Hgr Htoc.
  rewrite phase4_run. cbv zeta.
  rewrite (phase4_oracle_returned self result (files w) wd gr toc Hwd Hgr Htoc).
  eexists _, _, _.
  split; [reflexivity|]. split; [reflexivity|].
  split; [reflexivity|]. split; [reflexivity|].
  intros Hfail. cbn. unfold toc_applies. by rewrite Hfail, andb_false_r.
Qed.

(** * Further properties of the code *)

(** ** Selector parsing, continued *)

(** X3.  What [_parse_max_phase] does with every selector.  The literal
    "all" gives [MAX_PHASES].  Any other selector raises, and then
    [ValueError], exactly when it has a digit without a decimal value or
    consists of more decimal digits than [int] converts.  Otherwise a
    selector of decimal digits only gives its value in base ten, and a
    selector that is empty or has a character that is no digit gives a
    value between 0 and 9: the largest digit in it, or 1 when it has
    none. *)
Theorem parse_max_phase_outcomes (self : Orchestrator) :
  let s := phases (config self) in
  (s = str_of "all" → _parse_max_phase self = Returned MAX_PHASES) ∧
  (s ≠ str_of "all" →
     ((∃ e, _parse_max_phase self = Raised e) ↔
        Exists non_decimal_digit s ∨
        (Forall (λ c, isdecimal_char c = true) s ∧
         (int_max_str_digits < Z.of_nat (length s))%Z)) ∧
     (∀ e, _parse_max_phase self = Raised e → e = ValueError) ∧
     (s ≠ [] → Forall (λ c, isdecimal_char c = true) s →
        (Z.of_nat (length s) <= int_max_str_digits)%Z →
        _parse_max_phase self = Returned (decimal_value s)) ∧
     (Forall (λ c, ¬ non_decimal_digit c) s →
      s = [] ∨ Exists (λ c, isdigit_char c = false) s →
        ∃ m, _parse_max_phase self = Returned m ∧ (0 <= m <= 9)%Z ∧
             (Exists (λ c, isdigit_char c = true) s → is_max_digit s m) ∧
             (Forall (λ c, isdigit_char c = false) s → m = 1%Z))).
Proof.
  intros s. split; [apply parse_max_phase_all|]. intros Hall.
  assert (s ≠ [] → forallb isdecimal_char s = true →
          _parse_max_phase self
          = if (Z.of_nat (length s) <=? int_max_str_digits)%Z
            then Returned (decimal_value s) else Raised ValueError) as Hdigits
    by (by apply parse_max_phase_digits).
  assert (forallb isdecimal_char (List.filter isdigit_char s) = false →
          _parse_max_phase self = Raised ValueError) as Hbad
    by (by apply parse_max_phase_bad_digit).
  pose proof (parse_max_phase_mixed self Hall) as Hmixed. fold s in Hmixed.
  assert ((∃ e, _parse_max_phase self = Raised e) →
          forallb isdecimal_char (List.filter isdigit_char s) = false ∨
          (s ≠ [] ∧ forallb isdecimal_char s = true ∧
           (int_max_str_digits < Z.of_nat (length s))%Z)) as Hraised.
  { intros [e He].
    destruct (forallb isdecimal_char (List.filter isdigit_char s)) eqn:Hf; [|by left].
    right. destruct (isdigit s) eqn:Hd.
    - apply isdigit_spec in Hd as [Hs Hd].
      rewrite filter_isdigit_all in Hf by done. split; [done|]. split; [done|].
      rewrite (Hdigits Hs Hf) in He. destruct (Z.leb_spec (Z.of_nat (length s)) int_max_str_digits);
        [discriminate He|done].
    - destruct (Hmixed eq_refl eq_refl) as (m & Hm & _). congruence. }
  split; [|split; [|split]].
  - split.
    + intros He. destruct (Hraised He) as [Hf|(Hs & Hdec & Hlong)].
      * left. by apply exists_non_decimal_digit.
      * right. split; [by apply forallb_isdecimal|done].
    + intros [Hex|[Hdec Hlong]].
      * exists ValueError. by apply Hbad, exists_non_decimal_digit.
      * assert (s ≠ []) as Hs.
        { intros Hnil. rewrite Hnil in Hlong. cbn in Hlong. unfold int_max_str_digits in Hlong. lia. }
        exists ValueError. rewrite Hdigits by (done || by apply forallb_isdecimal).
        destruct (Z.leb_spec (Z.of_nat (length s)) int_max_str_digits); [lia|done].
  - intros e He. destruct (Hraised (ex_intro _ e He)) as [Hf|(Hs & Hdec & Hlong)].
    + rewrite (Hbad Hf) in He. congruence.
    + rewrite (Hdigits Hs Hdec) in He.
      destruct (Z.leb_spec (Z.of_nat (length s)) int_max_str_digits); [lia|congruence].
  - intros Hs Hdec Hlen. rewrite Hdigits by (done || by apply forallb_isdecimal).
    destruct (Z.leb_spec (Z.of_nat (length s)) int_max_str_digits); [done|lia].
  - intros Hgood Hother.
    assert (isdigit s = false) as Hd.
    { destruct (isdigit s) eqn:Hd; [|done]. apply isdigit_spec in Hd as [Hs Hd].
      destruct Hother as [Hnil|Hex]; [done|].
      apply List.Exists_exists in Hex as (c & Hc & Hcd).
      rewrite List.Forall_forall in Hd. rewrite (Hd c Hc) in Hcd. discriminate Hcd. }
    destruct (Hmixed Hd (proj2 (digits_all_decimal s) Hgood)) as (m & Hm & Hrange & Hmax & Hone).
    exists m. split; [done|]. split; [done|]. split.
    + intros Hex. apply Hmax. apply existsb_exists.
      by apply List.Exists_exists in Hex.
    + intros Hnone. apply Hone. apply not_true_is_false. intros Hex.
      apply existsb_exists in Hex as (c & Hc & Hcd).
      rewrite List.Forall_forall in Hnone. rewrite (Hnone c Hc) in Hcd. discriminate Hcd.
Qed.

(** X4.  A selector of two or more decimal digits, the first of them not a
    zero and not too many for [int], is read as one number, not as a set of
    phases: the parsed maximum phase is at least 10 and above every digit of
    the selector. *)
Theorem multi_digit_selector_is_one_number (self : Orchestrator) (c : codepoint)
    (cs : list codepoint) :
  phases (config self) = c :: cs →
  cs ≠ [] →
  Forall (λ d, isdecimal_char d = true) (c :: cs) →
  digit_value c ≠ 0%Z →
  (Z.of_nat (length (c :: cs)) <= int_max_str_digits)%Z →
  ∃ m, _parse_max_phase self = Returned m ∧ (10 <= m)%Z ∧
       ∀ d, In d (c :: cs) → (digit_value d < m)%Z.
Proof.
  intros Hs Hcs Hdec Hc Hlen.
  assert (phases (config self) ≠ str_of "all") as Hall.
  { rewrite Hs. intros [= -> ->]. apply List.Forall_inv in Hdec. discriminate Hdec. }
  exists (decimal_value (phases (config self))). split.
  { pose proof (parse_max_phase_digits self) as H. cbv zeta in H. rewrite H.
    - rewrite Hs.
      destruct (Z.leb_spec (Z.of_nat (length (c :: cs))) int_max_str_digits); [done|lia].
    - done.
    - by rewrite Hs.
    - rewrite Hs. by apply forallb_isdecimal. }
  assert (10 <= decimal_value (phases (config self)))%Z as Hten.
  { unfold decimal_value. rewrite Hs. cbn [map positional_value].
    rewrite length_map.
    pose proof (digit_value_range c) as H1.
    pose proof (positional_value_nonneg _ (digit_values_nonneg cs)) as H2.
    assert (10 ^ 1 <= 10 ^ Z.of_nat (length cs))%Z as H3.
    { apply Z.pow_le_mono_r; [lia|]. destruct cs; [done|]. cbn [length]. lia. }
    change (10 ^ 1)%Z with 10%Z in H3. nia. }
  split; [done|]. intros d Hin. pose proof (digit_value_range d). lia.
Qed.

(** ** Directory setup *)

(** X2.  A proposed directory that repeats the repository's name in front is
    set up exactly like the directory without it: same full path, same
    verdict, same message. *)
Theorem setup_directory_ignores_repo_prefix (repo_path rest : string) :
  String.prefix (path_name repo_path +:+ "/") rest = false →
  _setup_directory repo_path ((path_name repo_path +:+ "/") +:+ rest)
  = _setup_directory repo_path rest.
Proof.
  intros Hrest.
  assert (_normalize_working_directory repo_path ((path_name repo_path +:+ "/") +:+ rest)
          = rest) as H1.
  { unfold _normalize_working_directory.
    rewrite prefix_app, <- length_app_slash. apply drop_chars_app. }
  assert (_normalize_working_directory repo_path rest = rest) as H2.
  { unfold _normalize_working_directory. by rewrite Hrest. }
  unfold _setup_directory. by rewrite H1, H2.
Qed.

(** ** The workflow, continued *)

(** Case analysis on the three gates of [execute], once the selector is
    parsed and Phase 1 has returned. *)
Ltac workflow_cases :=
  match goal with
  | |- context [(2 <=? ?m)%Z && directory_ready ?r] =>
      destruct ((2 <=? m)%Z && directory_ready r) eqn:?; [rewrite phase2_run|]
  end;
  cbn -[phase2_result phase2_events phase2_oracle];
  match goal with
  | |- context [(3 <=? ?m)%Z && strategy_ready ?r] =>
      destruct ((3 <=? m)%Z && strategy_ready r) eqn:?; [rewrite phase3_run|]
  end;
  cbn -[phase2_result phase2_events phase2_oracle phase3_result phase3_events
        phase3_oracle phase3_writes];
  match goal with
  | |- context [(4 <=? ?m)%Z && generation_ready ?r && negb ?s] =>
      destruct ((4 <=? m)%Z && generation_ready r && negb s) eqn:?;
      [rewrite phase4_run
      | destruct ((4 <=? m)%Z && s) eqn:?; unfold when;
        [destruct (console_display _) eqn:?|]]
  end;
  unfold mret, M_ret, emit; cbn [fst snd].

Lemma disk_events_phase1_events (self : Orchestrator) :
  disk_events (phase1_events self) = [].
Proof.
  unfold phase1_events, _execute_phase1, _detect_directory, auto_confirm_check.
  run_cases; reflexivity.
Qed.

Lemma disk_events_phase2_events (self : Orchestrator) (o : outcome ContentStrategy) :
  disk_events (phase2_events self o) = [].
Proof.
  destruct o as [s|e]; [|by apply disk_events_console_only].
  apply disk_events_console_only. cbn -[Nat.ltb take].
  rewrite !disk_events_app, disk_events_decisions. by destruct (5 <? _)%nat.
Qed.

Lemma phase3_writes_preview (self : Orchestrator) (o : outcome (string * GenerationResults)) :
  apply_changes (config self) = false → phase3_writes self o = [].
Proof. intros H. destruct o as [[wd gr]|e]; [|done]. cbn. by rewrite H. Qed.

Lemma phase4_writes_preview (self : Orchestrator) (o : outcome (string * TocResults)) :
  apply_changes (config self) = false → phase4_writes self o = [].
Proof.
  intros H. destruct o as [[wd toc]|e]; [|done]. unfold phase4_writes, toc_applies.
  by rewrite H.
Qed.

Lemma disk_events_phase3_preview (self : Orchestrator)
    (o : outcome (string * GenerationResults)) :
  apply_changes (config self) = false → disk_events (phase3_events self o) = [].
Proof.
  intros H. destruct o as [[wd gr]|e]; [|apply disk_events_failure_events].
  unfold phase3_events. rewrite H, disk_events_app, !disk_events_console_only; done.
Qed.

Lemma disk_events_phase4_preview (self : Orchestrator) (o : outcome (string * TocResults)) :
  apply_changes (config self) = false → disk_events (phase4_events self o) = [].
Proof.
  intros H. destruct o as [[wd toc]|e]; [|apply disk_events_failure_events].
  unfold phase4_events, toc_applies. rewrite H. cbn [andb].
  rewrite disk_events_app, !disk_events_console_only; [done..|].
  by destruct (toc_success toc), (toc_changes_made toc).
Qed.

(** X5.  The workflow raises exactly when the selector does not parse or,
    the selector parsed, Phase 1 raises, and then with that exception:
    Phases 2, 3 and 4 never abort it. *)
Theorem execute_raises_from_parse_or_phase1 (self : Orchestrator) (w : World) (e : exn) :
  (execute self w).1 = Raised e ↔
  _parse_max_phase self = Raised e ∨
  ((∃ max_phase, _parse_max_phase self = Returned max_phase) ∧
   (_execute_phase1 self w).1 = Raised e).
Proof.
  unfold execute. unfold mbind, M_bind, call.
  destruct (_parse_max_phase self) as [mp|e0] eqn:Hp.
  2: { cbn. split; [intros [= ->]; by left|]. by intros [[= ->]|[[m [=]] _]]. }
  rewrite phase1_run. destruct (phase1_outcome self) as [r1|e1] eqn:H1.
  2: { cbn. split; [intros [= ->]; right; eauto|]. by intros [[=]|[_ [= ->]]]. }
  workflow_cases; (split; [discriminate|]); by intros [[=]|[_ [=]]].
Qed.

(** X6.  A run whose selector does not parse logs nothing.  In every other
    run Phase 1 starts first, and the phases that follow it are a selection
    of 2, 3, 4 in this order: no phase runs twice and none runs before a
    lower-numbered one. *)
Theorem phases_run_in_order (self : Orchestrator) (w : World) :
  ∃ evs,
    journal_extends w (execute self w).2 evs ∧
    match _parse_max_phase self with
    | Raised _ => evs = []
    | Returned _ => ∃ later, banners evs = 1 :: later ∧ sublist later [2; 3; 4]
    end.
Proof.
  unfold execute. unfold mbind, M_bind, call.
  destruct (_parse_max_phase self) as [mp|e0] eqn:Hp.
  2: { exists []. split; [|done]. unfold journal_extends. cbn. by rewrite app_nil_r. }
  rewrite phase1_run. destruct (phase1_outcome self) as [r1|e1] eqn:H1.
  2: { eexists. split; [journal_of_run|]. exists []. split; [by banners_of_run|].
       apply sublist_nil_l. }
  workflow_cases.
  all: eexists; (split; [journal_of_run|]); eexists; (split; [by banners_of_run|]).
  all: solve [repeat first [apply sublist_skip | apply sublist_cons | apply sublist_nil]].
Qed.

Ltac disk_events_of_run H :=
  repeat first
    [ rewrite disk_events_app
    | rewrite disk_events_phase1_events
    | rewrite disk_events_phase2_events
    | rewrite (disk_events_phase3_preview _ _ H)
    | rewrite (disk_events_phase4_preview _ _ H)
    | rewrite disk_events_console_only by reflexivity
    | rewrite disk_events_cons_other by reflexivity
    | rewrite disk_events_nil ];
  cbn [app].

(** X7.  In preview mode the orchestrator writes no file and makes no
    directory in the whole run, whatever the collaborators return or raise,
    and Phases 2, 3 and 4 leave the files as Phase 1 left them (as they
    were, when the selector does not parse and Phase 1 never starts). *)
Theorem preview_touches_nothing (self : Orchestrator) (w : World) :
  apply_changes (config self) = false →
  files (execute self w).2
  = match _parse_max_phase self with
    | Returned _ => files (_execute_phase1 self w).2
    | Raised _ => files w
    end ∧
  ∃ evs, journal_extends w (execute self w).2 evs ∧ disk_events evs = [].
Proof.
  intros Hpreview.
  unfold execute. unfold mbind, M_bind, call.
  destruct (_parse_max_phase self) as [mp|e0] eqn:Hp.
  2: { split; [done|]. exists []. split; [|done].
       unfold journal_extends. cbn. by rewrite app_nil_r. }
  rewrite !phase1_run. destruct (phase1_outcome self) as [r1|e1] eqn:H1.
  2: { split; [done|]. eexists. split; [journal_of_run|]. by disk_events_of_run Hpreview. }
  workflow_cases.
  all: rewrite ?(phase3_writes_preview _ _ Hpreview), ?(phase4_writes_preview _ _ Hpreview).
  all: split; [reflexivity|].
  all: eexists; (split; [journal_of_run|]); by disk_events_of_run Hpreview.
Qed.

(** ** Containment in Phases 3 and 4 *)

Lemma phase3_oracle_raised (self : Orchestrator) (result : Result) (fs : gmap string string)
    (wd : string) (e : exn) :
  working_directory_full_path result = Some wd →
  generator_process fs (content_strategy result) (material_summaries result) wd
    (extract_name (repo_url (config self))) (working_directory result) = Raised e →
  ∃ e', phase3_oracle self result fs = Raised e'.
Proof.
  intros Hwd Hg. unfold phase3_oracle. rewrite Hwd. cbv zeta. rewrite Hg.
  destruct (console_display self), (content_strategy result); eauto.
Qed.

(** X8.  Phase 3 never raises, and [generation_ready] tells whether results
    were stored.  When the generator returns, the phase is ready whatever
    the entries say about their own success; when it raises, or the result
    has no working directory path, the results are [None], the phase is not
    ready and no file is written. *)
Theorem phase3_contains_exceptions (self : Orchestrator) (result : Result) (w : World) :
  ∃ result' w',
    _execute_phase3 self result w = (Returned result', w') ∧
    (generation_ready result' = true ↔ is_Some (generation_results result')) ∧
    (∀ wd gr,
       working_directory_full_path result = Some wd →
       (console_display self = true → is_Some (content_strategy result)) →
       generator_process (files w) (content_strategy result) (material_summaries result) wd
         (extract_name (repo_url (config self))) (working_directory result) = Returned gr →
       generation_ready result' = true) ∧
    (∀ wd e,
       working_directory_full_path result = Some wd →
       generator_process (files w) (content_strategy result) (material_summaries result) wd
         (extract_name (repo_url (config self))) (working_directory result) = Raised e →
       generation_results result' = None ∧ generation_ready result' = false ∧
       files w' = files w) ∧
    (working_directory_full_path result = None →
       generation_results result' = None ∧ generation_ready result' = false ∧
       files w' = files w).
Proof.
  rewrite phase3_run. cbv zeta. eexists _, _. split; [reflexivity|]. cbn [files].
  split; [|split; [|split]].
  - destruct (phase3_oracle _ _ _) as [[wd gr]|e]; cbn.
    + split; eauto.
    + split; [done|]. by intros [? ?].
  - intros wd gr Hwd Hs Hg.
    by rewrite (phase3_oracle_returned self result (files w) wd gr Hwd Hs Hg).
  - intros wd e Hwd Hg.
    destruct (phase3_oracle_raised self result (files w) wd e Hwd Hg) as [e' ->]. by cbn.
  - intros Hwd. unfold phase3_oracle. rewrite Hwd. by cbn.
Qed.

Lemma phase4_oracle_raised (self : Orchestrator) (result : Result) (fs : gmap string string)
    (wd : string) (gr : GenerationResults) (e : exn) :
  working_directory_full_path result = Some wd →
  generation_results result = Some gr →
  toc_process fs wd (created_files gr) (updated_files gr)
    (decisions_of (content_strategy result)) = Raised e →
  phase4_oracle self result fs = Raised e.
Proof. intros Hwd Hgr Htoc. unfold phase4_oracle. by rewrite Hwd, Hgr, Htoc. Qed.

Lemma phase4_oracle_wd (self : Orchestrator) (result : Result) (fs : gmap string string)
    (wd : string) (toc : TocResults) :
  phase4_oracle self result fs = Returned (wd, toc) →
  working_directory_full_path result = Some wd.
Proof.
  unfold phase4_oracle.
  destruct (working_directory_full_path result) as [wd'|]; [|done].
  destruct (generation_results result) as [gr|]; [|done].
  destruct (toc_process _ _ _ _ _); [|done]. by intros [= -> _].
Qed.

(** X9.  Phase 4 never raises, and [toc_ready] tells whether TOC results
    were stored.  When the TOC processor raises, or the result lacks the
    generation results or the working directory path that the phase reads,
    the TOC results are [None], the phase is not ready and no file is
    written. *)
Theorem phase4_contains_exceptions (self : Orchestrator) (result : Result) (w : World) :
  ∃ result' w',
    _execute_phase4 self result w = (Returned result', w') ∧
    (toc_ready result' = true ↔ is_Some (toc_results result')) ∧
    (∀ wd gr e,
       working_directory_full_path result = Some wd →
       generation_results result = Some gr →
       toc_process (files w) wd (created_files gr) (updated_files gr)
         (decisions_of (content_strategy result)) = Raised e →
       toc_results result' = None ∧ toc_ready result' = false ∧ files w' = files w) ∧
    (working_directory_full_path result = None ∨ generation_results result = None →
       toc_results result' = None ∧ toc_ready result' = false ∧ files w' = files w).
Proof.
  rewrite phase4_run. cbv zeta. eexists _, _. split; [reflexivity|]. cbn [files].
  split; [|split].
  - destruct (phase4_oracle _ _ _) as [[wd toc]|e]; cbn.
    + split; eauto.
    + split; [done|]. by intros [? ?].
  - intros wd gr e Hwd Hgr Htoc.
    by rewrite (phase4_oracle_raised self result (files w) wd gr e Hwd Hgr Htoc).
  - intros [H|H]; unfold phase4_oracle; rewrite H; [done|].
    by destruct (working_directory_full_path result).
Qed.

(** X13.  Phase 4 changes no file but the manifest: every path other than
    [TOC.yml] under the result's working directory holds afterwards what it
    held before, in every mode and whatever the TOC processor does. *)
Theorem phase4_touches_only_the_manifest (self : Orchestrator) (result : Result)
    (w : World) (p : string) :
  (∀ wd, working_directory_full_path result = Some wd → p ≠ joinpath wd "TOC.yml") →
  files (_execute_phase4 self result w).2 !! p = files w !! p.
Proof.
  intros Hp. rewrite phase4_run. cbv zeta. cbn [snd files].
  destruct (phase4_oracle self result (files w)) as [[wd toc]|e] eqn:Ho; [|done].
  apply phase4_oracle_wd in Ho. unfold phase4_writes.
  destruct (toc_applies self toc && truthy (toc_content toc)); [|done].
  apply after_writes_lookup_other. intros pc [<-|[]]. cbn. intros Heq.
  by apply (Hp wd Ho).
Qed.

(** ** The apply engine, continued *)

(** X10.  Applying the generation results changes only the files that an
    applicable entry targets: every other path holds afterwards what it held
    before, and nothing is deleted. *)
Theorem apply_leaves_other_files (gr : GenerationResults) (wd : string) (w : World)
    (p : string) :
  (∀ r, In r (create_results gr) → applicable entry_content r = true →
        target_path wd r ≠ p) →
  (∀ r, In r (update_results gr) → applicable entry_updated_content r = true →
        target_path wd r ≠ p) →
  files (_apply_generated_content gr wd w).2 !! p = files w !! p.
Proof.
  intros Hc Hu. rewrite apply_generated_content_run. cbn [snd files].
  apply after_writes_lookup_other.
  intros pc [Hpc|Hpc]%in_app_or;
    apply in_planned_writes in Hpc as (r & Hin & Hr & ->); eauto.
Qed.

(** X11.  An UPDATE that succeeded and carries content, and that no later
    applicable UPDATE of the same file follows, decides what the file holds:
    its updated content, also when a CREATE result wrote the same file
    before. *)
Theorem last_update_wins (gr : GenerationResults) (wd : string) (w : World)
    (before : list GenEntry) (r : GenEntry) (after : list GenEntry) :
  update_results gr = before ++ r :: after →
  entry_success r = true →
  truthy (entry_updated_content r) = true →
  (∀ r', In r' after → applicable entry_updated_content r' = true →
         target_path wd r' ≠ target_path wd r) →
  files (_apply_generated_content gr wd w).2 !! target_path wd r = entry_updated_content r.
Proof.
  intros Hupdate Hok Hcontent Hafter.
  rewrite apply_generated_content_run. cbn [snd files].
  assert (applicable entry_updated_content r = true) as Hr
    by (unfold applicable; by rewrite Hok, Hcontent).
  rewrite Hupdate, planned_writes_app.
  unfold planned_writes at 3. cbn [omap list_omap]. rewrite Hr. cbn [mbind option_bind].
  fold (planned_writes entry_updated_content wd after).
  rewrite app_assoc.
  rewrite (applicable_content entry_updated_content r Hr) at 2.
  apply after_writes_lookup_last.
  intros pc Hpc. apply in_planned_writes in Hpc as (r' & Hin & Hr' & ->). eauto.
Qed.

Lemma mkdirs_of_create_journal (wd : string) (rs : list GenEntry) :
  mkdirs_of (create_journal wd rs)
  = map (λ r, path_parent (target_path wd r)) (List.filter (applicable entry_content) rs).
Proof.
  induction rs as [|r rs IH]; [done|].
  unfold create_journal in *. cbn [flat_map List.filter].
  rewrite mkdirs_of_app, IH. by destruct (applicable entry_content r).
Qed.

Lemma mkdirs_of_update_journal (wd : string) (rs : list GenEntry) :
  mkdirs_of (update_journal wd rs) = [].
Proof.
  induction rs as [|r rs IH]; [done|].
  unfold update_journal in *. cbn [flat_map].
  rewrite mkdirs_of_app, IH. by destruct (applicable entry_updated_content r).
Qed.

(** X12.  Directories are made for CREATE results only: applying the
    generation results makes the parent directory of each applicable CREATE
    target, in the order of [create_results], and makes none for an UPDATE,
    whose file is written where it is. *)
Theorem directories_made_for_creates_only (gr : GenerationResults) (wd : string)
    (w : World) :
  ∃ evs,
    journal_extends w (_apply_generated_content gr wd w).2 evs ∧
    mkdirs_of evs
    = map (λ r, path_parent (target_path wd r))
        (List.filter (applicable entry_content) (create_results gr)).
Proof.
  rewrite apply_generated_content_run. eexists. split; [reflexivity|].
  by rewrite mkdirs_of_app, mkdirs_of_create_journal, mkdirs_of_update_journal, app_nil_r.
Qed.

(** ** Phase 1 without auto-confirm *)

Lemma phase1_interactive_outcome (self : Orchestrator) (rp st : string) (ms : list string) :
  auto_confirm (config self) = false →
  clone_or_update (repo_url (config self)) (work_dir (config self)) = Returned rp →
  material_process (support_materials (config self)) rp = Returned ms →
  get_structure rp (max_repo_depth (config self)) = Returned st →
  phase1_outcome self =
    match
      match detector_process rp st ms with
      | Returned p => dir_confirm (Some p) st false EmptyString
      | Raised e0 => dir_confirm None st true (str_exn e0)
      end
    with
    | Returned c =>
        match _setup_directory rp (confirmed_working_directory c) with
        | Returned setup => Returned (_create_phase1_result self c setup rp ms)
        | Raised e => Raised e
        end
    | Raised e => Raised e
    end.
Proof.
  intros Hauto Hclone Hmat Hstruct.
  unfold phase1_outcome, _execute_phase1, _detect_directory. munfold.
  cbn -[_setup_directory]. rewrite Hclone. cbn -[_setup_directory].
  rewrite Hmat. cbn -[_setup_directory]. rewrite Hstruct, Hauto. cbn -[_setup_directory].
  destruct (detector_process rp st ms) as [p|e0]; cbn -[_setup_directory];
    (destruct (dir_confirm _ st _ _) as [c|e]; cbn -[_setup_directory]; [|done]);
    (destruct (_setup_directory rp _); cbn; [|done]);
    by destruct (console_display self).
Qed.

Lemma setup_directory_full_path (repo_path working_dir : string) (setup : SetupResult) :
  _setup_directory repo_path working_dir = Returned setup →
  setup_full_path setup
  = Some (joinpath repo_path (_normalize_working_directory repo_path working_dir)).
Proof.
  unfold _setup_directory, _validate_directory, _count_markdown_files.
  unfold mbind, outcome_bind, mret, outcome_ret.
  destruct (path_exists _) as [[]|]; cbn; [|by intros [= <-]|done].
  destruct (path_is_dir _) as [[]|]; cbn; [|by intros [= <-]|done].
  destruct (rglob_md _); cbn; [by intros [= <-]|done].
Qed.

(** X14.  Without auto-confirm Phase 1 validates nothing itself: whatever
    the oracle proposes, and also when it raises, the confirmation dialogue
    is asked (with [llm_failed] and the error message in the second case).
    Once the dialogue returns, the phase ends as the directory setup ends:
    it raises what a path test of the setup raises, and otherwise returns a
    result that records the dialogue's directory verbatim, its justification
    and its confidence, with [directory_ready] and [setup_error] as the
    setup reports them and the full path built from the normalized
    directory. *)
Theorem interactive_phase1_defers_to_dialogue (self : Orchestrator) (w : World)
    (rp st : string) (ms : list string) (c : Confirmed) :
  auto_confirm (config self) = false →
  clone_or_update (repo_url (config self)) (work_dir (config self)) = Returned rp →
  material_process (support_materials (config self)) rp = Returned ms →
  get_structure rp (max_repo_depth (config self)) = Returned st →
  match detector_process rp st ms with
  | Returned p => dir_confirm (Some p) st false EmptyString
  | Raised e0 => dir_confirm None st true (str_exn e0)
  end = Returned c →
  (∀ e, _setup_directory rp (confirmed_working_directory c) = Raised e →
        (_execute_phase1 self w).1 = Raised e) ∧
  (∀ setup, _setup_directory rp (confirmed_working_directory c) = Returned setup →
     ∃ r, (_execute_phase1 self w).1 = Returned r ∧
          working_directory r = confirmed_working_directory c ∧
          justification r = confirmed_justification c ∧
          confidence r = confirmed_confidence c ∧
          repo_path r = rp ∧
          material_summaries r = ms ∧
          directory_ready r = setup_success setup ∧
          setup_error r = setup_error_message setup ∧
          working_directory_full_path r
          = Some (joinpath rp
                    (_normalize_working_directory rp (confirmed_working_directory c)))).
Proof.
  intros Hauto Hclone Hmat Hstruct Hconfirm.
  rewrite phase1_run. cbn [fst].
  rewrite (phase1_interactive_outcome self rp st ms Hauto Hclone Hmat Hstruct), Hconfirm.
  split; [by intros e ->|].
  intros setup Hsetup. rewrite Hsetup.
  exists (_create_phase1_result self c setup rp ms).
  split; [reflexivity|]. repeat (split; [reflexivity|]).
  cbn. by apply setup_directory_full_path.
Qed.

(** ** The generation summary *)

Lemma planned_writes_count (field : GenEntry → option string) (wd : string)
    (rs : list GenEntry) :
  length (planned_writes field wd rs) ≤ length (List.filter entry_success rs) ∧
  (length (planned_writes field wd rs) = length (List.filter entry_success rs)
   ↔ ∀ r, In r rs → entry_success r = true → truthy (field r) = true).
Proof.
  induction rs as [|r rs [IHle IHeq]]; [cbn; split; [lia|]; split; [by intros _ r []|done]|].
  unfold planned_writes in *. cbn [omap list_omap List.filter].
  set (n := length (omap _ rs)) in *.
  set (k := length (List.filter entry_success rs)) in *.
  assert (applicable field r = entry_success r && truthy (field r)) as Happ
    by reflexivity.
  destruct (entry_success r) eqn:Hok, (truthy (field r)) eqn:Ht;
    cbn [andb] in Happ; rewrite Happ; cbn [length]; fold n; fold k.
  - split; [lia|]. split.
    + intros Hlen r' [<-|Hin] Hr'; [done|]. apply IHeq; [lia|done..].
    + intros Hall. f_equal. apply IHeq. intros r' Hin. apply Hall. by right.
  - split; [lia|]. split; [lia|].
    intros Hall. specialize (Hall r (or_introl eq_refl) Hok). congruence.
  - split; [lia|]. split.
    + intros Hlen r' [<-|Hin] Hr'; [congruence|]. by apply IHeq.
    + intros Hall. apply IHeq. intros r' Hin. apply Hall. by right.
  - split; [done|]. split.
    + intros Hlen r' [<-|Hin] Hr'; [congruence|]. by apply IHeq.
    + intros Hall. apply IHeq. intros r' Hin. apply Hall. by right.
Qed.

(** X15.  The counts of created and updated files that the generation
    summary reports are upper bounds on the files the apply engine writes:
    it never writes more, and it writes exactly that many if and only if
    every entry reported as successful carries non-empty content. *)
Theorem summary_counts_bound_writes (gr : GenerationResults) (wd : string) (w : World) :
  ∃ evs,
    journal_extends w (_apply_generated_content gr wd w).2 evs ∧
    length (writes_of evs)
    ≤ (_log_generation_summary gr).1 + (_log_generation_summary gr).2 ∧
    (length (writes_of evs)
     = (_log_generation_summary gr).1 + (_log_generation_summary gr).2
     ↔ (∀ r, In r (create_results gr) → entry_success r = true →
             truthy (entry_content r) = true) ∧
       (∀ r, In r (update_results gr) → entry_success r = true →
             truthy (entry_updated_content r) = true)).
Proof.
  rewrite apply_generated_content_run. eexists. split; [reflexivity|].
  rewrite writes_of_app, writes_of_create_journal, writes_of_update_journal, length_app.
  unfold _log_generation_summary. cbn [fst snd].
  destruct (planned_writes_count entry_content wd (create_results gr)) as [Hc Hceq].
  destruct (planned_writes_count entry_updated_content wd (update_results gr)) as [Hu Hueq].
  split; [lia|]. rewrite <- Hceq, <- Hueq. lia.
Qed.

(** ** The console display *)

(** X16.  Attaching a console display changes what is shown, not what is
    done: with and without it, Phases 2 and 4 return the same result and
    leave the same files, and so does Phase 3 whenever the result has a
    strategy (the console flow reads the strategy's decisions before it
    generates). *)
Theorem console_display_is_observational (cfg : Config) (result : Result) (w : World) :
  let quiet := {| config := cfg; console_display := false |} in
  let shown := {| config := cfg; console_display := true |} in
  (_execute_phase2 shown result w).1 = (_execute_phase2 quiet result w).1 ∧
  files (_execute_phase2 shown result w).2 = files (_execute_phase2 quiet result w).2 ∧
  (is_Some (content_strategy result) →
     (_execute_phase3 shown result w).1 = (_execute_phase3 quiet result w).1 ∧
     files (_execute_phase3 shown result w).2 = files (_execute_phase3 quiet result w).2) ∧
  (_execute_phase4 shown result w).1 = (_execute_phase4 quiet result w).1 ∧
  files (_execute_phase4 shown result w).2 = files (_execute_phase4 quiet result w).2.
Proof.
  intros quiet shown.
  rewrite !phase2_run, !phase3_run, !phase4_run. cbv zeta. cbn [fst snd files].
  split; [reflexivity|]. split; [reflexivity|]. split; [|split; reflexivity].
  intros [s Hs].
  assert (phase3_oracle shown result (files w) = phase3_oracle quiet result (files w)) as ->.
  { unfold phase3_oracle. cbn. by rewrite Hs. }
  split; reflexivity.
Qed.

(** ** What raises in Phase 1 *)

(** X17.  Without auto-confirm, Phase 1 raises exactly what one of these
    raises, in this order: the clone, the material processor, the structure
    scan, the confirmation dialogue, or a path test of the directory setup,
    which is called outside any [try].  A failure of the directory oracle
    alone never aborts the phase. *)
Theorem interactive_phase1_raises_collaborator_errors (self : Orchestrator) (w : World)
    (e : exn) :
  auto_confirm (config self) = false →
  (_execute_phase1 self w).1 = Raised e ↔ phase1_raises self e.
Proof.
  intros Hauto. rewrite phase1_run. cbn [fst]. unfold phase1_raises.
  destruct (clone_or_update _ _) as [rp|e1] eqn:Hclone.
  2: { rewrite (proj1 (phase1_before_validation self) _ Hclone).
       split; [intros [= ->]; by left|]. by intros [[= ->]|(rp & [=] & _)]. }
  destruct (material_process (support_materials (config self)) rp) as [ms|e2] eqn:Hmat.
  2: { rewrite (proj1 (proj2 (phase1_before_validation self)) _ _ Hclone Hmat). split.
       - intros [= ->]. right. exists rp. split; [done|]. by left.
       - intros [[=]|(rp' & [= <-] & [Hm|(ms & Hm & _)])]; congruence. }
  destruct (get_structure rp (max_repo_depth (config self))) as [st|e3] eqn:Hst.
  2: { rewrite (proj2 (proj2 (phase1_before_validation self)) _ _ _ Hclone Hmat Hst).
       split.
       - intros [= ->]. right. exists rp. split; [done|]. right. exists ms.
         split; [done|]. by left.
       - intros [[=]|(rp' & [= <-] & [Hm|(ms' & Hm & [Hs|(st & Hs & _)])])];
           congruence. }
  rewrite (phase1_interactive_outcome self rp st ms Hauto Hclone Hmat Hst).
  split.
  - intros Hrun. right. exists rp. split; [done|]. right. exists ms. split; [done|].
    right. exists st. split; [done|]. cbv zeta.
    destruct (match detector_process rp st ms with
              | Returned p => _ | Raised e0 => _ end) as [c|e4].
    + right. exists c. split; [done|].
      destruct (_setup_directory rp (confirmed_working_directory c)); congruence.
    + left. congruence.
  - intros [[=]|(rp' & [= <-] & [Hm|(ms' & Hm & [Hs|(st' & Hs & Hc)])])];
      try congruence.
    assert (ms' = ms) as -> by congruence. assert (st' = st) as -> by congruence.
    cbv zeta in Hc. destruct Hc as [->|(c & -> & ->)]; reflexivity.
Qed.

(** ** Where the disk changes *)

(** X18.  The orchestrator's own writes and directories all come from
    Phases 3 and 4: in a run in which neither of them starts, in apply mode
    as well, it writes no file and makes no directory, and the files at the
    end are the files Phase 1 left (the files as they were, when the
    selector does not parse and Phase 1 never starts). *)
Theorem disk_changes_need_phase3_or_phase4 (self : Orchestrator) (w : World) :
  ∃ evs,
    journal_extends w (execute self w).2 evs ∧
    (¬ phase_ran 3 evs → ¬ phase_ran 4 evs →
       disk_events evs = [] ∧
       files (execute self w).2
       = match _parse_max_phase self with
         | Returned _ => files (_execute_phase1 self w).2
         | Raised _ => files w
         end).
Proof.
  unfold execute. unfold mbind, M_bind, call.
  destruct (_parse_max_phase self) as [mp|e0] eqn:Hp.
  2: { exists []. split; [|done]. unfold journal_extends. cbn. by rewrite app_nil_r. }
  rewrite !phase1_run. destruct (phase1_outcome self) as [r1|e1] eqn:H1.
  2: { eexists. split; [journal_of_run|]. intros _ _. split; [|done].
       rewrite disk_events_cons_other by reflexivity. apply disk_events_phase1_events. }
  workflow_cases.
  all: eexists; (split; [journal_of_run|]).
  all: rewrite !phase_ran_banners; banners_of_run; intros H3 H4.
  all: try (exfalso; (apply H3 || apply H4); tauto).
  all: split; [|reflexivity].
  all: repeat first
         [ rewrite disk_events_app
         | rewrite disk_events_phase1_events
         | rewrite disk_events_phase2_events
         | rewrite disk_events_console_only by reflexivity
         | rewrite disk_events_cons_other by reflexivity
         | rewrite disk_events_nil ];
       reflexivity.
Qed.

(** ** Applying twice *)

(** X19.  Applying the same generation results a second time changes no
    file: the files after two applications are the files after one. *)
Theorem apply_twice_is_apply_once (gr : GenerationResults) (wd : string) (w : World) :
  files (_apply_generated_content gr wd (_apply_generated_content gr wd w).2).2
  = files (_apply_generated_content gr wd w).2.
Proof.
  rewrite !apply_generated_content_run. cbn [snd files]. apply after_writes_twice.
Qed.

End Properties.

(** * Examples

    Runs of the scripted environment: the inputs at which statements of
    the specification fail as worded, and instances of the theorems
    above. *)

(** C9, the claim as stated fails: with repository name "repo", normalizing
    "repo/repo/docs" gives "repo/docs", and normalizing that again gives
    "docs"; the second normalization is not a no-op. *)
Lemma normalize_not_idempotent :
  @_normalize_working_directory posix "/work/repo"
    (@_normalize_working_directory posix "/work/repo" "repo/repo/docs")
  ≠ @_normalize_working_directory posix "/work/repo" "repo/repo/docs".
Proof. by vm_compute. Qed.

(** C2, the failing input: the selector "²" (SUPERSCRIPT TWO, U+00B2)
    satisfies [isdigit], so [_parse_max_phase] hands it to [int], which
    raises [ValueError]; no maximum phase is returned. *)
Lemma non_decimal_digit_selector_raises_witness :
  isdigit [178%N] = true ∧
  @_parse_max_phase threshold_env superscript_two_self = Raised ValueError.
Proof.
  split; [reflexivity|].
  apply (@non_decimal_digit_selector_raises threshold_env superscript_two_self).
  - vm_compute. discriminate.
  - apply Exists_cons_hd. split; reflexivity.
Defined.

(** "repo/docs" in the repository "repo" is normalized to "docs". *)
Lemma normalize_strips_one_prefix_witness :
  @_normalize_working_directory posix "/work/repo" "repo/docs" = "docs"%string.
Proof.
  exact (proj1 (@normalize_strips_one_prefix posix "/work/repo" "repo/docs") "docs"%string eq_refl).
Defined.

(** C5, the failing input: in apply mode, with TOC results that report
    success and changes but carry empty content, [_apply_toc_changes] finds
    no content to apply and writes nothing, and the results are annotated
    [applied=True] all the same: the manifest does not exist afterwards. *)
Lemma toc_applied_without_write :
  let self := demo_self "all" true true false in
  let run := @execute posix empty_toc_env self empty_world in
  ∃ result toc,
    run.1 = Returned result ∧ toc_results result = Some toc ∧
    apply_changes (config self) = true ∧ toc_success toc = true ∧
    toc_changes_made toc = true ∧ toc_applied toc = Some true ∧
    files run.2 !! "/work/repo/docs/TOC.yml"%string = None ∧
    writes_of (journal run.2)
    = [("/work/repo/docs/new.md", "# New"); ("/work/repo/docs/old.md", "# Old")]%string.
Proof.
  cbv zeta. eexists _, _.
  split; [vm_compute; reflexivity|].
  split; [reflexivity|].
  repeat split; vm_compute; reflexivity.
Qed.

(** C8, the claim as stated fails: in apply mode, a CREATE result with
    [success=True] whose generated content is empty is not written; its file
    does not exist afterwards. *)
Lemma successful_create_not_written :
  let self := demo_self "123" true true false in
  let run := @execute posix empty_create_env self empty_world in
  ∃ result gr r,
    run.1 = Returned result ∧ generation_results result = Some gr ∧
    apply_changes (config self) = true ∧ generation_applied gr = Some true ∧
    In r (create_results gr) ∧ entry_success r = true ∧
    entry_content r = Some EmptyString ∧
    files run.2 !! @target_path posix "/work/repo/docs" r = None.
Proof.
  cbv zeta. eexists _, _, _.
  split; [vm_compute; reflexivity|].
  split; [reflexivity|].
  split; [reflexivity|]. split; [reflexivity|].
  split; [left; reflexivity|].
  repeat split; vm_compute; reflexivity.
Qed.

(** C4, the claim as stated fails: in headless mode, with a directory oracle
    that proposes "docs" with confidence 0.90, so that none of the three
    cases holds, Phase 1 still raises when the clone fails. *)
Lemma headless_clone_failure_is_fatal :
  let self := demo_self "1" true false false in
  auto_confirm (config self) = true ∧
  (@_execute_phase1 posix failing_clone_env self empty_world).1
  = Raised (CollaboratorError "clone failed") ∧
  ∀ rp st ms, ¬ headless_rejects (@detector_process failing_clone_env rp st ms).
Proof.
  cbv zeta. split; [reflexivity|]. split; [reflexivity|].
  intros rp st ms [H|H]; [discriminate H|]. vm_compute in H. discriminate H.
Qed.

(** A headless Phase 1 with a proposal of confidence exactly 0.70 returns. *)
Lemma headless_phase1_fatal_cases_witness :
  ∃ r, (@_execute_phase1 posix threshold_env (demo_self "1" true false false)
          empty_world).1 = Returned r.
Proof.
  destruct (proj2 (proj2 (proj2
              (@headless_phase1_fatal_cases posix threshold_env
                 (demo_self "1" true false false) empty_world eq_refl)))
              "/work/repo"%string [] "docs/"%string eq_refl eq_refl eq_refl)
    as (_ & _ & _ & _ & H).
  destruct (H (demo_proposal (7 # 10)) eq_refl eq_refl) as (_ & _ & _ & Hreturns).
  { vm_compute. discriminate. }
  eexists. exact (Hreturns _ _ eq_refl eq_refl).
Defined.

(** The strategy oracle raises a connection error: the workflow returns with
    [strategy_ready] unset and a strategy of confidence 0. *)
Lemma phase2_contains_exceptions_witness :
  ∃ result,
    (@execute posix failing_strategy_env (demo_self "all" true false false)
       empty_world).1 = Returned result
    ∧ strategy_ready result = false
    ∧ ∃ s, content_strategy result = Some s ∧ (strategy_confidence s == 0)%Q.
Proof.
  edestruct (proj2 (proj2 (@phase2_contains_exceptions posix failing_strategy_env
                             (demo_self "all" true false false)))
               empty_world 4%Z) as (result & evs & Hrun & _ & _ & _ & _ & Hready & s & Hs & Hc & _).
  - vm_compute. reflexivity.
  - vm_compute. reflexivity.
  - vm_compute. discriminate.
  - reflexivity.
  - right. exists "/work/repo/docs"%string. split; [reflexivity|].
    right. exists []. split; [reflexivity|]. left. reflexivity.
  - exists result. split; [exact Hrun|]. split; [exact Hready|]. exists s. by split.
Defined.

(** In apply mode the generated "new.md" is found under the working directory
    with its generated content. *)
Lemma phase3_apply_semantics_witness :
  ∃ w', (@_execute_phase3 posix full_toc_env (demo_self "all" true true false)
           (demo_result (demo_generated [] [])) empty_world).2 = w'
        ∧ files w' !! "/work/repo/docs/new.md"%string = Some "# New"%string.
Proof.
  destruct (@phase3_apply_semantics posix full_toc_env (demo_self "all" true true false)
              (demo_result (demo_generated [] [])) empty_world)
    as (result' & w' & evs & Hrun & _ & _ & H).
  exists w'. split; [by rewrite Hrun|].
  refine (proj2 (H "/work/repo/docs"%string _ eq_refl _ eq_refl) eq_refl
            [] (demo_create true "new.md" (Some "# New"%string)) [] eq_refl eq_refl eq_refl _ _).
  - discriminate.
  - intros r' [].
  - intros r' [<-|[]] _. vm_compute. discriminate.
Defined.

(** In apply mode, with success, changes and a non-empty document, the
    manifest holds the returned document. *)
Lemma toc_manifest_written_iff_witness :
  ∃ w', (@_execute_phase4 posix full_toc_env (demo_self "all" true true false)
           (demo_result (demo_generated [] [])) empty_world).2 = w'
        ∧ files w' !! "/work/repo/docs/TOC.yml"%string = Some "items: []"%string.
Proof.
  destruct (@toc_manifest_written_iff posix full_toc_env (demo_self "all" true true false)
              (demo_result (demo_generated [] [])) empty_world
              "/work/repo/docs" (demo_generated [] [])
              (demo_toc true true (Some "items: []"%string)) eq_refl eq_refl eq_refl)
    as (result' & w' & evs & Hrun & _ & H & _).
  exists w'. split; [by rewrite Hrun|].
  destruct (H eq_refl "items: []"%string eq_refl) as [-> _]; [discriminate|].
  apply lookup_insert_eq.
Defined.

(** The TOC processor returns a failure report: [toc_ready] is set next to
    [success=False] and [applied=False]. *)
Lemma toc_ready_whenever_processor_returns_witness :
  ∃ result' toc',
    (@_execute_phase4 posix failed_toc_env (demo_self "all" true true false)
       (demo_result (demo_generated [] [])) empty_world).1 = Returned result'
    ∧ toc_ready result' = true
    ∧ toc_results result' = Some toc'
    ∧ toc_success toc' = false
    ∧ toc_applied toc' = Some false.
Proof.
  destruct (@toc_ready_whenever_processor_returns posix failed_toc_env
              (demo_self "all" true true false) (demo_result (demo_generated [] []))
              empty_world "/work/repo/docs" (demo_generated [] [])
              (demo_toc false false None) eq_refl eq_refl eq_refl)
    as (result' & w' & toc' & Hrun & Hready & Htoc & Hsuccess & Happlied).
  exists result', toc'. split; [by rewrite Hrun|].
  split; [exact Hready|]. split; [exact Htoc|]. split; [exact Hsuccess|].
  exact (Happlied eq_refl).
Defined.

(** A proposal "repo/docs" for the repository "repo" is set up exactly as
    "docs" is. *)
Lemma setup_directory_ignores_repo_prefix_witness :
  @_setup_directory posix (scripted_tree ["/work/repo/docs"%string] [] ["a.md"%string])
    "/work/repo" "repo/docs"
  = @_setup_directory posix (scripted_tree ["/work/repo/docs"%string] [] ["a.md"%string])
      "/work/repo" "docs".
Proof.
  exact (@setup_directory_ignores_repo_prefix posix
           (scripted_tree ["/work/repo/docs"%string] [] ["a.md"%string])
           "/work/repo" "docs" eq_refl).
Defined.

(** The selector "12" asks for twelve phases, more than either of its
    digits. *)
Lemma multi_digit_selector_is_one_number_witness :
  ∃ m, @_parse_max_phase threshold_env (demo_self "12" true false false) = Returned m
       ∧ (10 <= m)%Z
       ∧ ∀ d, In d (str_of "12") → (digit_value d < m)%Z.
Proof.
  apply (@multi_digit_selector_is_one_number threshold_env
           (demo_self "12" true false false) 49%N [50%N]).
  - reflexivity.
  - discriminate.
  - repeat constructor.
  - vm_compute. discriminate.
  - vm_compute. discriminate.
Defined.

(** A full preview run over an empty disk: at the end the files are those
    Phase 1 left, and no write or directory is in the journal. *)
Lemma preview_touches_nothing_witness :
  files (@execute posix full_toc_env (demo_self "all" true false false) empty_world).2
  = files (@_execute_phase1 posix full_toc_env (demo_self "all" true false false)
             empty_world).2
  ∧ disk_events
      (journal (@execute posix full_toc_env (demo_self "all" true false false)
                  empty_world).2) = [].
Proof.
  destruct (@preview_touches_nothing posix full_toc_env
              (demo_self "all" true false false) empty_world eq_refl)
    as (Hfiles & evs & Hjournal & Hdisk).
  split; [exact Hfiles|]. rewrite Hjournal. exact Hdisk.
Defined.

(** Applying one CREATE and one UPDATE leaves a third file of the working
    directory as it was. *)
Lemma apply_leaves_other_files_witness :
  files (@_apply_generated_content posix
           (demo_generated [demo_create true "new.md" (Some "# New"%string)]
              [demo_update true "old.md" (Some "# Old"%string)])
           "/work/repo/docs"
           {| files := {["/work/repo/docs/keep.md"%string := "kept"%string]};
              journal := [] |}).2
    !! "/work/repo/docs/keep.md"%string
  = Some "kept"%string.
Proof.
  rewrite (@apply_leaves_other_files posix
             (demo_generated [demo_create true "new.md" (Some "# New"%string)]
                [demo_update true "old.md" (Some "# Old"%string)])
             "/work/repo/docs"
             {| files := {["/work/repo/docs/keep.md"%string := "kept"%string]};
                journal := [] |}
             "/work/repo/docs/keep.md").
  - apply lookup_singleton_eq.
  - intros r [<-|[]] _. vm_compute. discriminate.
  - intros r [<-|[]] _. vm_compute. discriminate.
Defined.

(** Two updates of "old.md": the file holds the content of the second. *)
Lemma last_update_wins_witness :
  files (@_apply_generated_content posix
           (demo_generated []
              [demo_update true "old.md" (Some "first"%string);
               demo_update true "old.md" (Some "second"%string)])
           "/work/repo/docs" empty_world).2
    !! "/work/repo/docs/old.md"%string
  = Some "second"%string.
Proof.
  refine (@last_update_wins posix
            (demo_generated []
               [demo_update true "old.md" (Some "first"%string);
                demo_update true "old.md" (Some "second"%string)])
            "/work/repo/docs" empty_world
            [demo_update true "old.md" (Some "first"%string)]
            (demo_update true "old.md" (Some "second"%string)) []
            eq_refl eq_refl eq_refl _).
  intros r' [].
Defined.

(** Phase 4 in apply mode, with a document to write, leaves "new.md" as
    Phase 3 wrote it. *)
Lemma phase4_touches_only_the_manifest_witness :
  files (@_execute_phase4 posix full_toc_env (demo_self "all" true true false)
           (demo_result (demo_generated [] []))
           {| files := {["/work/repo/docs/new.md"%string := "# New"%string]};
              journal := [] |}).2
    !! "/work/repo/docs/new.md"%string
  = Some "# New"%string.
Proof.
  rewrite (@phase4_touches_only_the_manifest posix full_toc_env
             (demo_self "all" true true false) (demo_result (demo_generated [] []))
             {| files := {["/work/repo/docs/new.md"%string := "# New"%string]};
                journal := [] |}
             "/work/repo/docs/new.md").
  - apply lookup_singleton_eq.
  - intros wd Hwd. injection Hwd as <-. vm_compute. discriminate.
Defined.

(** Without auto-confirm, a proposal of confidence 0.70 for "docs" is
    confirmed by the dialogue and recorded as confirmed. *)
Lemma interactive_phase1_defers_to_dialogue_witness :
  ∃ r, (@_execute_phase1 posix threshold_env (demo_self "1" false false false)
          empty_world).1 = Returned r
       ∧ working_directory r = "docs"%string
       ∧ directory_ready r = true
       ∧ working_directory_full_path r = Some "/work/repo/docs"%string.
Proof.
  destruct (proj2 (@interactive_phase1_defers_to_dialogue posix threshold_env
                     (demo_self "1" false false false) empty_world "/work/repo" "docs/" []
                     {| confirmed_working_directory := "docs";
                        confirmed_justification := "closest match";
                        confirmed_confidence := 7 # 10 |}
                     eq_refl eq_refl eq_refl eq_refl eq_refl)
              {| setup_success := true;
                 setup_full_path := Some "/work/repo/docs"%string;
                 setup_error_message := None;
                 setup_markdown_count := Some 0%nat |} eq_refl)
    as (r & Hrun & Hwd & _ & _ & _ & _ & Hready & _ & Hfull).
  exists r. split; [exact Hrun|]. split; [exact Hwd|]. split; [exact Hready|exact Hfull].
Defined.

(** Without auto-confirm, when the directory oracle times out and the
    dialogue then raises for want of a proposal, Phase 1 raises the
    dialogue's exception, not the oracle's. *)
Lemma interactive_phase1_raises_collaborator_errors_witness :
  (@_execute_phase1 posix
     (scripted (Raised (CollaboratorError "timeout")) (Returned (demo_strategy (1 # 2)))
        healthy_generated (Returned (demo_toc true false None)))
     (demo_self "1" false false false) empty_world).1
  = Raised (CollaboratorError "no proposal to confirm").
Proof.
  apply (proj2 (@interactive_phase1_raises_collaborator_errors posix
                  (scripted (Raised (CollaboratorError "timeout"))
                     (Returned (demo_strategy (1 # 2))) healthy_generated
                     (Returned (demo_toc true false None)))
                  (demo_self "1" false false false) empty_world
                  (CollaboratorError "no proposal to confirm") eq_refl)).
  right. exists "/work/repo"%string. split; [reflexivity|].
  right. exists []. split; [reflexivity|].
  right. exists "docs/"%string. split; [reflexivity|]. left. reflexivity.
Defined.
